(** * Stargazer: a shallow embedding of [Stargazer.py]

    The development follows the program text of [src/Stargazer.py]:
    the data loader ([load_data_from_jsonl]), the persistence step of the
    fetcher ([get_all_starred]), the renderer ([generate_readme]) and the
    table of contents ([build_toc], [slugify]).

    Conventions.
    - Python text is a [string] of bytes.  The character classes of
      [str.strip], [str.lower] and of the patterns [\w] and [\s] are exact
      on ASCII; a byte above 127 is kept as an ordinary letter.
    - A Python [dict] whose iteration order is observed ([self.data]) is an
      association list in insertion order; a [dict] that is only looked up
      ([self.star_list_repos], [anchors]) is a [gmap].
    - A call that may raise returns a [result].
    - The [json] module is a library the program calls; the loader takes
      [json.loads] as an argument.  [MiniJson] is an executable reading of
      it on integers, strings, booleans, null, arrays and objects. *)

From Stdlib Require Import ZArith Ascii DecimalString Lia.
From stdpp Require Import gmap strings list sorting.

Local Open Scope Z_scope.
Local Set Warnings "-register-all".

(** ** Python [str] operations used by the program *)

Module Py.

Definition LF : ascii := "010"%char.
Definition CR : ascii := "013"%char.
Definition nl : string := String LF EmptyString.

(** [str.isspace] on one character: TAB..CR, FS..US and the space. *)
Definition isspace (c : ascii) : bool :=
  let n := N_of_ascii c in
  ((9 <=? n) && (n <=? 13) || (28 <=? n) && (n <=? 31) || (n =? 32))%N.

(** [\w]: letters, digits and the underscore. *)
Definition isword (c : ascii) : bool :=
  let n := N_of_ascii c in
  ((48 <=? n) && (n <=? 57) || (65 <=? n) && (n <=? 90) || (n =? 95)
   || (97 <=? n) && (n <=? 122) || (128 <=? n))%N.

Definition lower_char (c : ascii) : ascii :=
  let n := N_of_ascii c in
  if ((65 <=? n) && (n <=? 90))%N then ascii_of_N (n + 32) else c.

Fixpoint lower (s : string) : string :=
  match s with
  | EmptyString => EmptyString
  | String c s' => String (lower_char c) (lower s')
  end.

Fixpoint lstrip (s : string) : string :=
  match s with
  | EmptyString => EmptyString
  | String c s' => if isspace c then lstrip s' else s
  end.

Fixpoint rstrip (s : string) : string :=
  match s with
  | EmptyString => EmptyString
  | String c s' =>
      match rstrip s' with
      | EmptyString => if isspace c then EmptyString else String c EmptyString
      | r => String c r
      end
  end.

(** [s.strip()] *)
Definition strip (s : string) : string := lstrip (rstrip s).

Fixpoint filter_chars (keep : ascii -> bool) (s : string) : string :=
  match s with
  | EmptyString => EmptyString
  | String c s' =>
      if keep c then String c (filter_chars keep s') else filter_chars keep s'
  end.

(** [re.sub(r"\s+", "-", s)]: every maximal run of whitespace becomes one
    hyphen (written when the last character of the run is read). *)
Fixpoint collapse_ws (s : string) : string :=
  match s with
  | EmptyString => EmptyString
  | String c s' =>
      if isspace c then
        match s' with
        | EmptyString => "-"
        | String c' _ =>
            if isspace c' then collapse_ws s' else String "-"%char (collapse_ws s')
        end
      else String c (collapse_ws s')
  end.

(** [s.replace(old, new)] for a non-empty [old] (both call sites pass a
    constant): scan from the left, replace each match and resume after it.
    [skip] counts the characters of a match still to be passed over. *)
Fixpoint replace_from (old new : string) (skip : nat) (s : string) : string :=
  match s with
  | EmptyString => EmptyString
  | String c s' =>
      match skip with
      | S k => replace_from old new k s'
      | O =>
          if String.prefix old s
          then new +:+ replace_from old new (Nat.pred (String.length old)) s'
          else String c (replace_from old new O s')
      end
  end.

Definition replace (old new s : string) : string := replace_from old new O s.

(** [sep.join(ls)] *)
Definition join (sep : string) (ls : list string) : string := String.concat sep ls.

(** [str(n)] for an [int] *)
Definition str_of_int (z : Z) : string := NilZero.string_of_int (Z.to_int z).

(** Iterating a file opened in text mode: [\r\n] and a lone [\r] read as
    [\n]; every line keeps its terminator, the last one may lack it. *)
Fixpoint readlines (s : string) : list string :=
  match s with
  | EmptyString => []
  | String c s' =>
      if Ascii.eqb c LF then nl :: readlines s'
      else if Ascii.eqb c CR then
        match s' with
        | String c' _ => if Ascii.eqb c' LF then readlines s' else nl :: readlines s'
        | EmptyString => [nl]
        end
      else
        match readlines s' with
        | [] => [String c EmptyString]
        | l :: ls => String c l :: ls
        end
  end.

End Py.

(** ** Table of contents *)

(** [slugify] *)
Definition slugify (text : string) : string :=
  let slug := Py.lower (Py.strip text) in
  let slug := Py.filter_chars
                (fun c => Py.isword c || Py.isspace c || Ascii.eqb c "-"%char) slug in
  let slug := Py.collapse_ws slug in
  if String.eqb slug EmptyString then "section" else slug.

(** [slug if count == 0 else f"{slug}-{count}"] *)
Definition unique_slug (slug : string) (count : nat) : string :=
  match count with
  | O => slug
  | _ => slug +:+ "-" +:+ Py.str_of_int (Z.of_nat count)
  end.

(** One turn of the loop of [build_toc]: the anchor of [section] under the
    counters [anchors], and the counters after it. *)
Definition toc_step (anchors : gmap string nat) (section : string)
  : gmap string nat * string :=
  let slug := slugify section in
  let count := default O (anchors !! slug) in
  (<[slug := S count]> anchors, unique_slug slug count).

(** The anchors the loop of [build_toc] gives to [sections], in order. *)
Fixpoint toc_anchors (anchors : gmap string nat) (sections : list string)
  : list string :=
  match sections with
  | [] => []
  | section :: rest =>
      let '(anchors', anchor) := toc_step anchors section in
      anchor :: toc_anchors anchors' rest
  end.

Definition toc_line (section anchor : string) : string :=
  "- [" +:+ section +:+ "](#" +:+ anchor +:+ ")".

Definition nonempty (s : string) : bool := negb (String.eqb s EmptyString).

(** [build_toc] *)
Definition build_toc (sections : list string) : string :=
  let cleaned_sections := List.filter nonempty sections in
  match cleaned_sections with
  | [] => EmptyString
  | _ =>
      let toc_lines :=
        ["## TOC"; EmptyString]
          ++ zip_with toc_line cleaned_sections (toc_anchors ∅ cleaned_sections)
          ++ [EmptyString] in
      Py.join Py.nl toc_lines
  end.

(** ** Values of [json.loads] *)

Module Json.

(** What [json.loads] returns: [None], [bool], [int], [str], [list] and
    [dict] (the items of the dict, every key once).  Numerals with a
    fraction or an exponent are outside the model. *)
Inductive json : Type :=
| JNull
| JBool (b : bool)
| JInt (z : Z)
| JString (s : string)
| JArray (l : list json)
| JObject (o : list (string * json)).

(** [bool(v)] *)
Definition truthy (v : json) : bool :=
  match v with
  | JNull => false
  | JBool b => b
  | JInt z => negb (z =? 0)
  | JString s => nonempty s
  | JArray l => match l with [] => false | _ => true end
  | JObject o => match o with [] => false | _ => true end
  end.

(** Whether [hash(v)] is defined: lists and dicts are unhashable. *)
Definition hashable (v : json) : bool :=
  match v with
  | JArray _ | JObject _ => false
  | _ => true
  end.

Definition num_of_bool (b : bool) : Z := if b then 1 else 0.

(** [a == b] on hashable values, as a dict compares its keys:
    [True == 1] and [False == 0]. *)
Definition key_eqb (a b : json) : bool :=
  match a, b with
  | JNull, JNull => true
  | JString s, JString t => String.eqb s t
  | JBool x, JBool y => num_of_bool x =? num_of_bool y
  | JBool x, JInt z => num_of_bool x =? z
  | JInt z, JBool y => z =? num_of_bool y
  | JInt z, JInt w => z =? w
  | _, _ => false
  end.

(** [o.get(k, dflt)] on the items of a dict *)
Fixpoint get (o : list (string * json)) (k : string) (dflt : json) : json :=
  match o with
  | [] => dflt
  | (k', v) :: o' => if String.eqb k' k then v else get o' k dflt
  end.

End Json.

Import Json.

(** ** Python dicts in insertion order *)

Section Dict.
Context {K V : Type} (eqb : K -> K -> bool).

(** [d.get(k)] *)
Fixpoint dict_get (d : list (K * V)) (k : K) : option V :=
  match d with
  | [] => None
  | (k', v) :: d' => if eqb k' k then Some v else dict_get d' k
  end.

(** [d[k] = v]: an existing key keeps its place (and its key object), a
    new key goes last. *)
Fixpoint dict_set (d : list (K * V)) (k : K) (v : V) : list (K * V) :=
  match d with
  | [] => [(k, v)]
  | (k', v') :: d' =>
      if eqb k' k then (k', v) :: d' else (k', v') :: dict_set d' k v
  end.

(** In-place update of the value stored under [k]. *)
Fixpoint dict_alter (f : V -> V) (d : list (K * V)) (k : K) : list (K * V) :=
  match d with
  | [] => []
  | (k', v) :: d' =>
      if eqb k' k then (k', f v) :: d' else (k', v) :: dict_alter f d' k
  end.

End Dict.

(** ** Results of calls that may raise *)

Inductive exn : Type :=
| AttributeError
| TypeError
| FileNotFoundError.

Inductive result (A : Type) : Type :=
| Ok (a : A)
| Raise (e : exn).
Arguments Ok {A} a.
Arguments Raise {A} e.

(** ** Data loader *)

(** The metadata dict built for one line of the store; each field holds
    whatever value the line gives it. *)
Record raw_repo : Type := RawRepo {
  raw_html_url : json;
  raw_description : json;
  raw_listed : json;
  raw_stars : json
}.

(** The record built at lines 97-102 from the parsed object. *)
Definition raw_of_obj (o : list (string * json)) : raw_repo :=
  {| raw_html_url := get o "html_url" (JString EmptyString);
     raw_description := get o "description" (JString EmptyString);
     raw_listed := get o "listed" (JBool false);
     raw_stars := get o "stars" (JInt 0) |}.

Section Loader.
Variable json_loads : string -> option json.

(** The body of the loop over the lines of the store (lines 90-104).
    [json_loads] answers [None] where [json.loads] raises
    [JSONDecodeError]; [obj.get] exists on a dict only; [data[full]]
    needs a hashable key. *)
Definition load_line (data : list (json * raw_repo)) (line : string)
  : result (list (json * raw_repo)) :=
  let line := Py.strip line in
  if String.eqb line EmptyString then Ok data
  else
    match json_loads line with
    | None => Ok data
    | Some (JObject o) =>
        let full := get o "full_name" JNull in
        if truthy full then
          if hashable full then Ok (dict_set key_eqb data full (raw_of_obj o))
          else Raise TypeError
        else Ok data
    | Some _ => Raise AttributeError
    end.

Fixpoint load_lines (data : list (json * raw_repo)) (lines : list string)
  : result (list (json * raw_repo)) :=
  match lines with
  | [] => Ok data
  | line :: rest =>
      match load_line data line with
      | Ok data' => load_lines data' rest
      | Raise e => Raise e
      end
  end.

(** [load_data_from_jsonl]: the value left in [self.data], or the exception
    that leaves the method.  [file] is the content of [self.data_file],
    [None] when the file does not exist. *)
Definition load_data_from_jsonl (file : option string)
  : result (list (json * raw_repo)) :=
  match file with
  | None => Ok []
  | Some content => load_lines [] (Py.readlines content)
  end.

End Loader.

(** ** Persistence step of the fetcher *)

(** One item of a page of the starred-repositories endpoint, with the four
    fields the fetcher reads; [description] may be [null]. *)
Record api_repo : Type := ApiRepo {
  api_full_name : string;
  api_html_url : string;
  api_description : option string;
  api_stargazers_count : Z
}.

(** A record of the store: the five fields of [entry] (lines 66-72). *)
Record entry : Type := Entry {
  full_name : string;
  e_html_url : string;
  e_description : string;
  e_listed : bool;
  e_stars : Z
}.

(** [repo["description"] or <empty string>] *)
Definition or_empty (d : option string) : string :=
  match d with
  | Some s => if nonempty s then s else EmptyString
  | None => EmptyString
  end.

Definition entry_of_api (repo : api_repo) : entry :=
  {| full_name := api_full_name repo;
     e_html_url := api_html_url repo;
     e_description := or_empty (api_description repo);
     e_listed := false;
     e_stars := api_stargazers_count repo |}.

(** The dict handed to [json.dumps], keys in the order of the literal. *)
Definition entry_json (e : entry) : json :=
  JObject [("full_name", JString (full_name e));
           ("html_url", JString (e_html_url e));
           ("description", JString (e_description e));
           ("listed", JBool (e_listed e));
           ("stars", JInt (e_stars e))].

Section Fetcher.
Variable json_dumps : json -> string.

(** [out_f.write(json.dumps(entry, ensure_ascii=False) + "\n")] for every
    entry in turn: the content of the store. *)
Fixpoint write_entries (entries : list entry) : string :=
  match entries with
  | [] => EmptyString
  | e :: rest => (json_dumps (entry_json e) +:+ Py.nl) +:+ write_entries rest
  end.

(** The store after [get_all_starred] has received [pages]. *)
Definition get_all_starred (pages : list (list api_repo)) : string :=
  write_entries (map entry_of_api (concat pages)).

End Fetcher.

(** ** Readme renderer *)

(** The metadata of one repository as the renderer uses it: a record of the
    store with the field types the fetcher writes ([str], [str], [bool],
    [int]). *)
Record repo : Type := Repo {
  html_url : string;
  description : string;
  listed : bool;
  stars : Z
}.

(** The attributes of the [Stargazer] object the renderer reads or
    writes.  [star_lists] holds the (identifier, name) pairs in discovery
    order, [star_list_repos] the (owner, repository) pairs of every
    identifier in scrape order, [data] the loaded mapping. *)
Record Stargazer : Type := MkStargazer {
  sort_by : string;
  star_lists : list (string * string);
  star_list_repos : gmap string (list (string * string));
  data : list (string * repo)
}.

(** [repo["listed"] = True] *)
Definition set_listed (r : repo) : repo :=
  {| html_url := html_url r; description := description r;
     listed := true; stars := stars r |}.

(** [f"{user}/{repo}"] *)
Definition full_key (m : string * string) : string := m.1 +:+ "/" +:+ m.2.

(** Lines 168-172: the members of a list that the mapping knows, paired
    with their metadata. *)
Fixpoint repos_of (d : list (string * repo)) (members : list (string * string))
  : list (string * repo) :=
  match members with
  | [] => []
  | m :: rest =>
      match dict_get String.eqb d (full_key m) with
      | Some r => (full_key m, r) :: repos_of d rest
      | None => repos_of d rest
      end
  end.

(** [sorted(l, key=key, reverse=True)]: descending by key, elements with
    equal keys in their order in [l]. *)
Section Sorted.
Context {A : Type} (key : A -> Z).

Fixpoint insert_desc (x : A) (l : list A) : list A :=
  match l with
  | [] => [x]
  | y :: l' => if key y <=? key x then x :: l else y :: insert_desc x l'
  end.

Fixpoint sorted_desc (l : list A) : list A :=
  match l with
  | [] => []
  | x :: l' => insert_desc x (sorted_desc l')
  end.

End Sorted.

(** Lines 174-178 *)
Definition sort_repos (mode : string) (repos : list (string * repo))
  : list (string * repo) :=
  if String.eqb mode "stars" then sorted_desc (fun x => stars x.2) repos
  else rev repos.

Definition star_glyph : string :=
  String "226"%char (String "173"%char (String "144"%char EmptyString)).

Definition table_rule : string :=
  "| Repository | Description | Stars |" +:+ Py.nl
  +:+ "|----------|------|-------|" +:+ Py.nl.

(** [f"## {list_name}\n\n"] and the two header lines of a table *)
Definition table_head (name : string) : string :=
  "## " +:+ name +:+ Py.nl +:+ Py.nl +:+ table_rule.

(** One data row: link, description with [|] escaped, stars. *)
Definition table_row (key desc : string) (n : Z) : string :=
  "| [" +:+ key +:+ "](https://github.com/" +:+ key +:+ ") | "
  +:+ Py.replace "|" "\|" desc +:+ " | " +:+ star_glyph +:+ Py.str_of_int n
  +:+ " |" +:+ Py.nl.

(** Lines 183-186, one turn: mark the record under [key] and add its row.
    [repo] is the very dict that [self.data] holds under [key] (the loader
    builds one dict per key), so the assignment to [repo["listed"]] is an
    update of the mapping at [key]; the description and the stars of the
    row are not touched by it. *)
Definition emit_row (st : list (string * repo) * string) (kr : string * repo)
  : list (string * repo) * string :=
  (dict_alter String.eqb set_listed st.1 kr.1,
   st.2 +:+ table_row kr.1 (description kr.2) (stars kr.2)).

(** Lines 166-187, one turn of the loop over [star_lists]. *)
Definition category_step (mode : string)
    (members_of : gmap string (list (string * string)))
    (st : list (string * repo) * string) (cat : string * string)
  : list (string * repo) * string :=
  let repos := repos_of st.1 (default [] (members_of !! cat.1)) in
  let sorted_repos := sort_repos mode repos in
  let st0 := (st.1, st.2 +:+ table_head cat.2) in
  let st1 := fold_left emit_row sorted_repos st0 in
  (st1.1, st1.2 +:+ Py.nl).

(** [not self.data[key]["listed"]] for a key of the mapping *)
Definition is_unlisted (d : list (string * repo)) (key : string) : bool :=
  match dict_get String.eqb d key with
  | Some r => negb (listed r)
  | None => false
  end.

(** [self.data[x]["stars"]] for a key of the mapping *)
Definition stars_of (d : list (string * repo)) (key : string) : Z :=
  match dict_get String.eqb d key with
  | Some r => stars r
  | None => 0
  end.

Definition description_of (d : list (string * repo)) (key : string) : string :=
  match dict_get String.eqb d key with
  | Some r => description r
  | None => EmptyString
  end.

(** Lines 190-198 *)
Definition unlisted (mode : string) (d : list (string * repo)) : list string :=
  let keys := List.filter (is_unlisted d) (map fst d) in
  if String.eqb mode "stars" then sorted_desc (stars_of d) keys
  else rev keys.

Definition placeholder_row : string :=
  "| *All repositories are categorized* | | |" +:+ Py.nl.

(** Lines 200-211 *)
Definition uncategorized_text (d : list (string * repo)) (keys : list string)
  : string :=
  table_head "Uncategorized Repositories"
  +:+ match keys with
      | [] => placeholder_row
      | _ =>
          fold_left
            (fun text k => text +:+ table_row k (description_of d k) (stars_of d k))
            keys EmptyString
      end
  +:+ Py.nl.

(** Lines 161-215: the mapping after the pass and the text handed to the
    template. *)
Definition generate_text (self : Stargazer) : list (string * repo) * string :=
  let sections := map snd (star_lists self) ++ ["Uncategorized Repositories"] in
  let st := fold_left (category_step (sort_by self) (star_list_repos self))
              (star_lists self) (data self, EmptyString) in
  let text := st.2 +:+ uncategorized_text st.1 (unlisted (sort_by self) st.1) in
  let toc := build_toc sections in
  (st.1, if nonempty toc then toc +:+ text else text).

Definition placeholder : string := "[[GENERATE HERE]]".

Definition with_data (self : Stargazer) (d : list (string * repo)) : Stargazer :=
  {| sort_by := sort_by self; star_lists := star_lists self;
     star_list_repos := star_list_repos self; data := d |}.

(** [generate_readme]: the object after the call and what was written to
    [self.output].  [template] is the content of [self.template], [None]
    when the file does not exist. *)
Definition generate_readme (self : Stargazer) (template : option string)
  : Stargazer * result string :=
  let '(d, text) := generate_text self in
  (with_data self d,
   match template with
   | None => Raise FileNotFoundError
   | Some t => Ok (Py.replace placeholder (Py.strip text) t)
   end).

(** ** An executable reading of the [json] module *)

Module MiniJson.

Definition hex_digit (n : N) : ascii :=
  ascii_of_N (if (n <? 10)%N then 48 + n else 87 + n).

(** The escape [json.dumps(..., ensure_ascii=False)] writes for one
    character of a string. *)
Definition escape_char (c : ascii) : string :=
  let n := N_of_ascii c in
  if (n =? 34)%N then "\" +:+ String c EmptyString
  else if (n =? 92)%N then "\\"
  else if (n =? 8)%N then "\b"
  else if (n =? 9)%N then "\t"
  else if (n =? 10)%N then "\n"
  else if (n =? 12)%N then "\f"
  else if (n =? 13)%N then "\r"
  else if (n <? 32)%N then
    "\u00" +:+ String (hex_digit (n / 16)) (String (hex_digit (n mod 16)) EmptyString)
  else String c EmptyString.

Fixpoint escape (s : string) : string :=
  match s with
  | EmptyString => EmptyString
  | String c s' => escape_char c +:+ escape s'
  end.

Definition quote (s : string) : string :=
  String "034"%char (escape s) +:+ String "034"%char EmptyString.

(** [json.dumps(v, ensure_ascii=False)] *)
Fixpoint dumps (v : json) : string :=
  match v with
  | JNull => "null"
  | JBool true => "true"
  | JBool false => "false"
  | JInt z => Py.str_of_int z
  | JString s => quote s
  | JArray l => "[" +:+ Py.join ", " (List.map dumps l) +:+ "]"
  | JObject o =>
      "{" +:+ Py.join ", " (List.map (fun kv => quote kv.1 +:+ ": " +:+ dumps kv.2) o)
      +:+ "}"
  end.

(** JSON whitespace: space, TAB, LF, CR. *)
Definition is_ws (c : ascii) : bool :=
  let n := N_of_ascii c in
  ((n =? 32) || (n =? 9) || (n =? 10) || (n =? 13))%N.

Fixpoint skip_ws (s : string) : string :=
  match s with
  | String c s' => if is_ws c then skip_ws s' else s
  | EmptyString => EmptyString
  end.

Definition is_digit (c : ascii) : bool :=
  let n := N_of_ascii c in ((48 <=? n) && (n <=? 57))%N.

Definition hex_value (c : ascii) : option N :=
  let n := N_of_ascii c in
  if ((48 <=? n) && (n <=? 57))%N then Some (n - 48)%N
  else if ((97 <=? n) && (n <=? 102))%N then Some (n - 87)%N
  else if ((65 <=? n) && (n <=? 70))%N then Some (n - 55)%N
  else None.

(** The characters of a string literal after its opening quote, up to the
    closing quote, and the text after it.  A raw control character is an
    error; of the [\u] escapes the ASCII ones are read. *)
Fixpoint scan_string (s : string) : option (string * string) :=
  match s with
  | EmptyString => None
  | String c s' =>
      let n := N_of_ascii c in
      if (n =? 34)%N then Some (EmptyString, s')
      else if (n =? 92)%N then
        match s' with
        | String e s'' =>
            let en := N_of_ascii e in
            let simple (d : ascii) :=
              match scan_string s'' with
              | Some (r, rest) => Some (String d r, rest)
              | None => None
              end in
            if (en =? 34)%N then simple "034"%char
            else if (en =? 92)%N then simple "092"%char
            else if (en =? 47)%N then simple "047"%char
            else if (en =? 98)%N then simple "008"%char
            else if (en =? 102)%N then simple "012"%char
            else if (en =? 110)%N then simple "010"%char
            else if (en =? 114)%N then simple "013"%char
            else if (en =? 116)%N then simple "009"%char
            else if (en =? 117)%N then
              match s'' with
              | String h1 (String h2 (String h3 (String h4 s4))) =>
                  match hex_value h1, hex_value h2, hex_value h3, hex_value h4 with
                  | Some 0%N, Some 0%N, Some a, Some b =>
                      if (a <? 8)%N then
                        match scan_string s4 with
                        | Some (r, rest) => Some (String (ascii_of_N (16 * a + b)) r, rest)
                        | None => None
                        end
                      else None
                  | _, _, _, _ => None
                  end
              | _ => None
              end
            else None
        | EmptyString => None
        end
      else if (n <? 32)%N then None
      else
        match scan_string s' with
        | Some (r, rest) => Some (String c r, rest)
        | None => None
        end
  end.

Fixpoint span_digits (s : string) : string * string :=
  match s with
  | String c s' =>
      if is_digit c then let '(d, rest) := span_digits s' in (String c d, rest)
      else (EmptyString, s)
  | EmptyString => (EmptyString, EmptyString)
  end.

(** An integer numeral (an optional minus sign, then a single zero or a
    digit string without a leading zero) not followed by a fraction or an
    exponent. *)
Definition scan_int (s : string) : option (Z * string) :=
  let '(neg, s1) :=
    match s with
    | String "-"%char s' => (true, s')
    | _ => (false, s)
    end in
  let '(digits, rest) := span_digits s1 in
  let well_formed :=
    match digits with
    | EmptyString => false
    | String "0"%char (String _ _) => false
    | _ => true
    end in
  let followed :=
    match rest with
    | String c _ =>
        Ascii.eqb c "."%char || Ascii.eqb c "e"%char || Ascii.eqb c "E"%char
    | EmptyString => false
    end in
  if well_formed && negb followed then
    match NilZero.int_of_string digits with
    | Some d => Some (if neg then - Z.of_int d else Z.of_int d, rest)
    | None => None
    end
  else None.

Definition expect (lit : string) (s : string) : option string :=
  if String.prefix lit s
  then Some (String.substring (String.length lit) (String.length s) s)
  else None.

(** One JSON value at the head of [s] (after whitespace), and the rest. *)
Fixpoint scan_value (fuel : nat) (s : string) : option (json * string) :=
  match fuel with
  | O => None
  | S fuel' =>
      match skip_ws s with
      | EmptyString => None
      | String c s' =>
          let n := N_of_ascii c in
          if (n =? 34)%N then
            match scan_string s' with
            | Some (str, rest) => Some (JString str, rest)
            | None => None
            end
          else if (n =? 123)%N then
            match skip_ws s' with
            | String "}"%char rest => Some (JObject [], rest)
            | s1 =>
                match scan_members fuel' s1 [] with
                | Some (o, rest) => Some (JObject o, rest)
                | None => None
                end
            end
          else if (n =? 91)%N then
            match skip_ws s' with
            | String "]"%char rest => Some (JArray [], rest)
            | s1 =>
                match scan_elements fuel' s1 with
                | Some (l, rest) => Some (JArray l, rest)
                | None => None
                end
            end
          else if (n =? 110)%N then
            option_map (fun rest => (JNull, rest)) (expect "null" (String c s'))
          else if (n =? 116)%N then
            option_map (fun rest => (JBool true, rest)) (expect "true" (String c s'))
          else if (n =? 102)%N then
            option_map (fun rest => (JBool false, rest)) (expect "false" (String c s'))
          else
            match scan_int (String c s') with
            | Some (z, rest) => Some (JInt z, rest)
            | None => None
            end
      end
  end
with scan_elements (fuel : nat) (s : string) : option (list json * string) :=
  match fuel with
  | O => None
  | S fuel' =>
      match scan_value fuel' s with
      | Some (v, rest) =>
          match skip_ws rest with
          | String "]"%char rest' => Some ([v], rest')
          | String ","%char rest' =>
              match scan_elements fuel' rest' with
              | Some (l, rest'') => Some (v :: l, rest'')
              | None => None
              end
          | _ => None
          end
      | None => None
      end
  end
with scan_members (fuel : nat) (s : string) (acc : list (string * json))
  : option (list (string * json) * string) :=
  match fuel with
  | O => None
  | S fuel' =>
      match skip_ws s with
      | String "034"%char s1 =>
          match scan_string s1 with
          | Some (k, s2) =>
              match skip_ws s2 with
              | String ":"%char s3 =>
                  match scan_value fuel' s3 with
                  | Some (v, s4) =>
                      let acc' := dict_set String.eqb acc k v in
                      match skip_ws s4 with
                      | String "}"%char rest => Some (acc', rest)
                      | String ","%char rest => scan_members fuel' rest acc'
                      | _ => None
                      end
                  | None => None
                  end
              | _ => None
              end
          | None => None
          end
      | _ => None
      end
  end.

(** [json.loads(s)]: [None] stands for [JSONDecodeError]. *)
Definition loads (s : string) : option json :=
  match scan_value (2 * String.length s + 2) s with
  | Some (v, rest) =>
      match skip_ws rest with
      | EmptyString => Some v
      | _ => None
      end
  | None => None
  end.

End MiniJson.


(** ** The lines of the store *)

(** The dict a line of the store holds: the line is not blank and
    [json.loads] gives a dict for it. *)
Definition line_object (json_loads : string -> option json) (line : string)
  : option (list (string * json)) :=
  if String.eqb (Py.strip line) EmptyString then None
  else
    match json_loads (Py.strip line) with
    | Some (JObject o) => Some o
    | _ => None
    end.



(** The dict [o] has no item under the key [k]. *)
Definition absent (k : string) (o : list (string * json)) : Prop :=
  forall v, ~ In (k, v) o.

(** The metadata of a record of the store, as the loader should give it
    back. *)
Definition raw_of_entry (e : entry) : raw_repo :=
  {| raw_html_url := JString (e_html_url e);
     raw_description := JString (e_description e);
     raw_listed := JBool (e_listed e);
     raw_stars := JInt (e_stars e) |}.

(** The mapping keyed by [full_name] of a sequence of records: a later
    record replaces an earlier one of the same name. *)
Definition mapping_of (entries : list entry) : list (json * raw_repo) :=
  fold_left
    (fun d e => dict_set key_eqb d (JString (full_name e)) (raw_of_entry e))
    entries [].

Fixpoint no_line_break (s : string) : bool :=
  match s with
  | EmptyString => true
  | String c s' =>
      negb (Ascii.eqb c Py.LF) && negb (Ascii.eqb c Py.CR) && no_line_break s'
  end.

(** What the loader relies on for a value written with [json.dumps]: the
    text is not empty, has no line break, no white space at either end,
    and [json.loads] reads the value back. *)
Definition dumps_ok (json_loads : string -> option json)
    (json_dumps : json -> string) (v : json) : Prop :=
  json_dumps v <> EmptyString
  /\ no_line_break (json_dumps v) = true
  /\ Py.strip (json_dumps v) = json_dumps v
  /\ json_loads (json_dumps v) = Some v.

(** ** From the loaded mapping to the renderer *)

(** The metadata the renderer works on, when the fields have the types the
    fetcher writes. *)
Definition repo_of_raw (r : raw_repo) : option repo :=
  match raw_html_url r, raw_description r, raw_listed r, raw_stars r with
  | JString u, JString d, JBool l, JInt n =>
      Some {| html_url := u; description := d; listed := l; stars := n |}
  | _, _, _, _ => None
  end.

Fixpoint data_of_raw (d : list (json * raw_repo)) : option (list (string * repo)) :=
  match d with
  | [] => Some []
  | (JString k, r) :: d' =>
      match repo_of_raw r, data_of_raw d' with
      | Some r', Some rest => Some ((k, r') :: rest)
      | _, _ => None
      end
  | _ :: _ => None
  end.

(** ** The tables of the document *)

(** [self.star_list_repos.get(list_url, [])] *)
Definition members_of (self : Stargazer) (list_url : string)
  : list (string * string) :=
  default [] (star_list_repos self !! list_url).

(** The rows of the table of one category, computed on the mapping as it
    is when [generate_readme] is called. *)
Definition category_rows (self : Stargazer) (cat : string * string)
  : list (string * repo) :=
  sort_repos (sort_by self) (repos_of (data self) (members_of self cat.1)).

Definition rows_text (rows : list (string * repo)) : string :=
  fold_right
    (fun kr text => table_row kr.1 (description kr.2) (stars kr.2) +:+ text)
    EmptyString rows.

Definition category_text (self : Stargazer) (cat : string * string) : string :=
  table_head cat.2 +:+ rows_text (category_rows self cat) +:+ Py.nl.

Definition concat_text (l : list string) : string :=
  fold_right String.append EmptyString l.

(** The keys of the rows of the last table. *)
Definition uncategorized_keys (self : Stargazer) : list string :=
  unlisted (sort_by self) (generate_text self).1.

(** The keys of the rows of every table, in document order. *)
Definition table_keys (self : Stargazer) : list (list string) :=
  map (fun cat => map fst (category_rows self cat)) (star_lists self)
  ++ [uncategorized_keys self].

(** In how many tables [key] has a row. *)
Definition tables_with (key : string) (self : Stargazer) : nat :=
  length (List.filter (existsb (String.eqb key)) (table_keys self)).

(** Every key of the mapping has a row in exactly one table. *)
Definition partition_property (self : Stargazer) : Prop :=
  forall key, In key (map fst (data self)) -> tables_with key self = 1%nat.

(** Star counts that never go up from one row to a later one. *)
Definition non_increasing (l : list Z) : Prop := StronglySorted Z.ge l.

(** How many of the sections [earlier] have the slug [slug]. *)
Definition slug_count (slug : string) (earlier : list string) : nat :=
  length (List.filter (String.eqb slug) (map slugify earlier)).


(** What a row shows of a record: its description and its stars. *)
Definition rview (r : repo) : string * Z := (description r, stars r).

Definition view (kr : string * repo) : string * (string * Z) := (kr.1, rview kr.2).

(** The marks left by the rows of the category tables. *)
Definition mark_all (keys : list string) (d : list (string * repo))
  : list (string * repo) :=
  fold_left (dict_alter String.eqb set_listed) keys d.

Definition claimed_keys (self : Stargazer) : list string :=
  concat (map (fun cat => map fst (category_rows self cat)) (star_lists self)).

(** ** Sample inputs *)

Definition sample_entry : entry :=
  {| full_name := "a/b"; e_html_url := "https://github.com/a/b";
     e_description := "x|y"; e_listed := false; e_stars := 10 |}.

Definition sample_entries : list entry :=
  [ sample_entry;
    {| full_name := "c/d"; e_html_url := "https://github.com/c/d";
       e_description := EmptyString; e_listed := false; e_stars := 0 |};
    {| full_name := "a/b"; e_html_url := "https://github.com/a/b";
       e_description := "again"; e_listed := true; e_stars := 11 |} ].


(** A store with a blank line, a line that is not JSON, two records of the
    same name and a record without a name. *)
Definition mixed_store : string :=
  Py.nl +:+ "{not json" +:+ Py.nl
  +:+ write_entries MiniJson.dumps sample_entries
  +:+ MiniJson.dumps (JObject [("stars", JInt 4)]) +:+ Py.nl.

(** The mapping of the end-to-end example, and no category. *)
Definition example_self (mode url : string) : Stargazer :=
  {| sort_by := mode; star_lists := []; star_list_repos := ∅;
     data := [("a/b", {| html_url := url;
                         description := "x|y"; listed := false; stars := 10 |})] |}.

(** One repository that two star lists contain. *)
Definition two_lists_self : Stargazer :=
  {| sort_by := "stars";
     star_lists := [("tools", "Tools"); ("go", "Go")];
     star_list_repos := <["tools" := [("a", "b")]]> (<["go" := [("a", "b")]]> ∅);
     data := [("a/b", {| html_url := "https://github.com/a/b";
                         description := "d"; listed := false; stars := 3 |})] |}.

(** One repository in no star list, stored with [listed] true. *)
Definition listed_self : Stargazer :=
  {| sort_by := "stars"; star_lists := []; star_list_repos := ∅;
     data := [("a/b", {| html_url := "https://github.com/a/b";
                         description := "d"; listed := true; stars := 3 |})] |}.

(** A richer object: three repositories, two lists, one repository in both
    lists, one in none, and a list member the mapping does not know. *)
Definition sample_self (mode : string) : Stargazer :=
  {| sort_by := mode;
     star_lists := [("tools", "Tools"); ("go", "Go")];
     star_list_repos :=
       <["tools" := [("a", "b"); ("x", "gone"); ("c", "d")]]>
         (<["go" := [("c", "d")]]> ∅);
     data := [("a/b", {| html_url := "https://github.com/a/b";
                         description := "first"; listed := false; stars := 3 |});
              ("c/d", {| html_url := "https://github.com/c/d";
                         description := "second"; listed := false; stars := 7 |});
              ("e/f", {| html_url := "https://github.com/e/f";
                         description := "third"; listed := false; stars := 5 |})] |}.


From Stdlib Require DecimalZ.

(** ** Further views of the renderer *)

(** [key in self.data] *)
Definition known (d : list (string * repo)) (key : string) : bool :=
  match dict_get String.eqb d key with
  | Some _ => true
  | None => false
  end.

(** Every [|] of [s] stands right after a backslash; [after_backslash]
    tells whether the character before [s] is one. *)
Fixpoint pipes_escaped (after_backslash : bool) (s : string) : bool :=
  match s with
  | EmptyString => true
  | String c s' =>
      (if Ascii.eqb c "|"%char then after_backslash else true)
      && pipes_escaped (Ascii.eqb c "\"%char) s'
  end.

(** Some star list of the object has [key] among its members. *)
Definition in_some_list (self : Stargazer) (key : string) : Prop :=
  exists cat, In cat (star_lists self)
              /\ In key (map full_key (members_of self cat.1)).

(** ** Characters of a slug *)

(** An ASCII capital letter. *)
Definition is_upper (c : ascii) : bool :=
  let n := N_of_ascii c in ((65 <=? n) && (n <=? 90))%N.

(** What a slug is made of: word characters that are not capital letters,
    and hyphens. *)
Definition slug_char (c : ascii) : bool :=
  Py.isword c && negb (is_upper c) || Ascii.eqb c "-"%char.

Fixpoint all_chars (p : ascii -> bool) (s : string) : bool :=
  match s with
  | EmptyString => true
  | String c s' => p c && all_chars p s'
  end.

(** ** Further views of the loader *)

(** What a line of the store gives to the mapping: the key and the record
    of the dict it holds, when the value under [full_name] is truthy. *)
Definition line_record (json_loads : string -> option json) (line : string)
  : option (json * raw_repo) :=
  match line_object json_loads line with
  | Some o =>
      if truthy (get o "full_name" JNull)
      then Some (get o "full_name" JNull, raw_of_obj o)
      else None
  | None => None
  end.

(** The keys of a dict after [d[k] = v]: a key equal to one already there
    changes nothing, another one goes last. *)
Definition add_key (keys : list json) (k : json) : list json :=
  if existsb (fun k' => key_eqb k' k) keys then keys else keys ++ [k].

(** No two of the keys are equal as dict keys. *)
Fixpoint distinct_keys (keys : list json) : bool :=
  match keys with
  | [] => true
  | k :: rest => negb (existsb (fun k' => key_eqb k k') rest) && distinct_keys rest
  end.

(** ** The builtin [int] on text *)

Module PyInt.

Definition is_digit (c : ascii) : bool :=
  let n := N_of_ascii c in ((48 <=? n) && (n <=? 57))%N.

Definition digit_value (c : ascii) : Z := Z.of_N (N_of_ascii c) - 48.

(** The value and the number of the digits of [s]; a single underscore may
    stand between two digits. *)
Fixpoint digits (acc : Z) (count : nat) (s : string) : option (Z * nat) :=
  match s with
  | EmptyString => Some (acc, count)
  | String c s' =>
      if is_digit c then digits (10 * acc + digit_value c) (S count) s'
      else if Ascii.eqb c "_"%char then
        match s' with
        | String c' _ => if is_digit c' then digits acc count s' else None
        | EmptyString => None
        end
      else None
  end.

(** [int(s)] for a [str]: white space around, an optional sign, decimal
    digits.  [None] stands for [ValueError]; [max_str_digits] is
    [sys.get_int_max_str_digits()], 0 when there is no limit (exact on
    ASCII text). *)
Definition int (max_str_digits : nat) (s : string) : option Z :=
  let t := Py.strip s in
  let '(negative, body) :=
    match t with
    | String c r =>
        if Ascii.eqb c "-"%char then (true, r)
        else if Ascii.eqb c "+"%char then (false, r)
        else (false, t)
    | EmptyString => (false, t)
    end in
  match body with
  | String c _ =>
      if is_digit c then
        match digits 0 O body with
        | Some (v, count) =>
            if ((0 <? max_str_digits) && (max_str_digits <? count))%nat then None
            else Some (if negative then - v else v)
        | None => None
        end
      else None
  | EmptyString => None
  end.

End PyInt.

(** ** Rate limit *)

(** [_handle_rate_limit]: the number of seconds handed to [time.sleep], or
    [None] when the method does not sleep.  [remaining] and [reset] are
    what [headers.get] gives for [X-RateLimit-Remaining] and
    [X-RateLimit-Reset]; [now] is [int(time.time())]. *)
Definition _handle_rate_limit (max_str_digits : nat)
    (remaining reset : option string) (now : Z) : option Z :=
  match remaining, reset with
  | Some remaining, Some reset =>
      match PyInt.int max_str_digits remaining with
      | Some r =>
          if r =? 0 then
            match PyInt.int max_str_digits reset with
            | Some reset_ts => Some (Z.max 0 (reset_ts - now + 5))
            | None => None
            end
          else None
      | None => None
      end
  | _, _ => None
  end.

(** ** Category scraper *)


(** How a loop over requests ends: it returns, a request raises, or the
    count of turns allowed to the loop is used up. *)
Inductive outcome (A : Type) : Type :=
| Returned (a : A)
| Raised
| OutOfFuel.
Arguments Returned {A} a.
Arguments Raised {A}.
Arguments OutOfFuel {A}.

(** The loop of [get_list_repos] (lines 140-152) from the page [page] on.
    [pages p] is what [re.findall] gives on page [p] of the list, [None]
    when [session.get] raises. *)
Fixpoint list_pages_loop (fuel : nat)
    (pages : nat -> option (list (string * string))) (list_name : string)
    (page : nat) (slr : gmap string (list (string * string)))
  : gmap string (list (string * string)) * outcome (list (string * string)) :=
  match fuel with
  | O => (slr, OutOfFuel)
  | S fuel' =>
      match pages page with
      | None => (slr, Raised)
      | Some [] => (slr, Returned (default [] (slr !! list_name)))
      | Some found =>
          list_pages_loop fuel' pages list_name (S page)
            (<[list_name := default [] (slr !! list_name) ++ found]> slr)
      end
  end.

(** [get_list_repos]: [self.star_list_repos] afterwards, and the list
    returned. *)
Definition get_list_repos (fuel : nat)
    (pages : nat -> option (list (string * string))) (list_name : string)
    (slr : gmap string (list (string * string)))
  : gmap string (list (string * string)) * outcome (list (string * string)) :=
  let slr0 :=
    match slr !! list_name with
    | Some _ => slr
    | None => <[list_name := []]> slr
    end in
  list_pages_loop fuel pages list_name 1 slr0.

(** [get_all_repos]: one call of [get_list_repos] for every star list in
    turn.  [server list_url] gives the pages of the list (the pages of a
    list are taken not to change during the run). *)
Fixpoint get_all_repos (fuel : nat)
    (server : string -> nat -> option (list (string * string)))
    (star_lists : list (string * string))
    (slr : gmap string (list (string * string)))
  : gmap string (list (string * string))
    * outcome (gmap string (list (string * string))) :=
  match star_lists with
  | [] => (slr, Returned slr)
  | (list_url, _) :: rest =>
      match get_list_repos fuel (server list_url) list_url slr with
      | (slr', Returned _) => get_all_repos fuel server rest slr'
      | (slr', Raised) => (slr', Raised)
      | (slr', OutOfFuel) => (slr', OutOfFuel)
      end
  end.

(** What the pages 1 to [n] of a list hold, in order. *)
Definition pages_upto (pages : nat -> option (list (string * string))) (n : nat)
  : list (string * string) :=
  concat (map (fun p => default [] (pages p)) (seq 1 n)).

(** The pages 1 to [n] are there and hold something; page [n + 1] holds
    nothing. *)
Definition ends_after (pages : nat -> option (list (string * string))) (n : nat)
  : Prop :=
  (forall p, (1 <= p <= n)%nat -> exists found, pages p = Some found /\ found <> [])
  /\ pages (S n) = Some [].

(** ** The pages of the starred repositories *)

(** What the fetcher reads of a response: whether [raise_for_status] lets
    it pass, the items of the page, the address of the next page, and the
    two rate limit headers. *)
Record response : Type := Response {
  status_ok : bool;
  page_items : list api_repo;
  next_url : option string;
  ratelimit_remaining : option string;
  ratelimit_reset : option string
}.

(** The loop of [get_all_starred] (lines 59-74).  [server n url] is the
    response to the request number [n], sent to [url] ([None] when
    [session.get] raises); [clock n] is [int(time.time())] at that turn.
    The result holds the pages written so far and the pauses made. *)
Fixpoint starred_loop (max_str_digits fuel : nat)
    (server : nat -> string -> option response) (clock : nat -> Z)
    (n : nat) (url : string) (pages : list (list api_repo)) (sleeps : list Z)
  : list (list api_repo) * list Z * outcome unit :=
  match fuel with
  | O => (pages, sleeps, OutOfFuel)
  | S fuel' =>
      match server n url with
      | None => (pages, sleeps, Raised)
      | Some resp =>
          let sleeps' :=
            match _handle_rate_limit max_str_digits (ratelimit_remaining resp)
                    (ratelimit_reset resp) (clock n) with
            | Some s => sleeps ++ [s]
            | None => sleeps
            end in
          if status_ok resp then
            let pages' := pages ++ [page_items resp] in
            match next_url resp with
            | Some next =>
                if nonempty next
                then starred_loop max_str_digits fuel' server clock (S n) next
                       pages' sleeps'
                else (pages', sleeps', Returned tt)
            | None => (pages', sleeps', Returned tt)
            end
          else (pages, sleeps', Raised)
      end
  end.

(** Line 50 *)
Definition starred_url (username : string) : string :=
  "https://api.github.com/users/" +:+ username +:+ "/starred?per_page=100".

(** The pages received, the pauses made and the end of a run of
    [get_all_starred] for the account [username]. *)
Definition fetch_starred (max_str_digits fuel : nat)
    (server : nat -> string -> option response) (clock : nat -> Z)
    (username : string)
  : list (list api_repo) * list Z * outcome unit :=
  starred_loop max_str_digits fuel server clock O (starred_url username) [] [].


(** How many of the star lists have the identifier [list_url]. *)
Definition calls_for (list_url : string) (star_lists : list (string * string)) : nat :=
  length (List.filter (String.eqb list_url) (map fst star_lists)).

(** ** Sample pages *)

Definition sample_pages (p : nat) : option (list (string * string)) :=
  match p with
  | 1%nat => Some [("a", "b"); ("x", "gone")]
  | 2%nat => Some [("c", "d")]
  | _ => Some []
  end.

Definition failing_pages (p : nat) : option (list (string * string)) :=
  match p with
  | 1%nat => Some [("a", "b")]
  | _ => None
  end.

Definition sample_server (list_url : string) : nat -> option (list (string * string)) :=
  if String.eqb list_url "tools" then sample_pages
  else fun p => match p with
                | 1%nat => Some [("c", "d")]
                | _ => Some []
                end.

Definition sample_ends (list_url : string) : nat :=
  if String.eqb list_url "tools" then 2%nat else 1%nat.


(** ** Sample responses *)

Definition sample_response_1 : response :=
  {| status_ok := true;
     page_items := [ {| api_full_name := "a/b";
                        api_html_url := "https://github.com/a/b";
                        api_description := Some "x|y";
                        api_stargazers_count := 10 |} ];
     next_url := Some "https://api.github.com/user/1/starred?per_page=100&page=2";
     ratelimit_remaining := Some "0";
     ratelimit_reset := Some "1700000030" |}.

Definition sample_response_2 : response :=
  {| status_ok := true;
     page_items := [ {| api_full_name := "c/d";
                        api_html_url := "https://github.com/c/d";
                        api_description := None;
                        api_stargazers_count := 0 |} ];
     next_url := None;
     ratelimit_remaining := Some "59";
     ratelimit_reset := Some "1700000030" |}.


(** A server that answers the first request with a page and a link, and
    the second with [last]. *)
Definition sample_api (last : response) (n : nat) (url : string) : option response :=
  match n with
  | 0%nat => if String.eqb url (starred_url "octocat") then Some sample_response_1 else None
  | 1%nat =>
      if String.eqb url "https://api.github.com/user/1/starred?per_page=100&page=2"
      then Some last else None
  | _ => None
  end.

Definition sample_pages_received : list (list api_repo) :=
  [page_items sample_response_1; page_items sample_response_2].

(** * Properties *)

(** ** Text *)

Lemma append_nil_l (a : string) : EmptyString +:+ a = a.
Proof. reflexivity. Qed.

Lemma append_cons (x : ascii) (a b : string) :
  String x a +:+ b = String x (a +:+ b).
Proof. reflexivity. Qed.

Lemma append_assoc (a b c : string) : (a +:+ b) +:+ c = a +:+ (b +:+ c).
Proof.
  induction a as [|x a IH]; [reflexivity|].
  rewrite !append_cons. now rewrite IH.
Qed.

Lemma append_nil_r (a : string) : a +:+ EmptyString = a.
Proof.
  induction a as [|x a IH]; [reflexivity|].
  rewrite append_cons. now rewrite IH.
Qed.

(** ** The loop over the categories *)

Lemma emit_rows rows : forall d t,
  fold_left emit_row rows (d, t) = (mark_all (map fst rows) d, t +:+ rows_text rows).
Proof.
  induction rows as [|kr rows IH]; intros d t; simpl.
  - now rewrite append_nil_r.
  - unfold emit_row at 2. simpl. rewrite IH. now rewrite append_assoc.
Qed.

Lemma dict_alter_view d k :
  map view (dict_alter String.eqb set_listed d k) = map view d.
Proof.
  induction d as [|[k' r] d IH]; simpl; [reflexivity|].
  destruct (String.eqb k' k); simpl; [reflexivity | now rewrite IH].
Qed.

Lemma mark_all_view ks : forall d, map view (mark_all ks d) = map view d.
Proof.
  induction ks as [|k ks IH]; intros d; simpl; [reflexivity|].
  unfold mark_all in IH. rewrite IH. apply dict_alter_view.
Qed.

Lemma mark_all_app ks1 ks2 d :
  mark_all (ks1 ++ ks2) d = mark_all ks2 (mark_all ks1 d).
Proof. unfold mark_all. apply fold_left_app. Qed.

Lemma dict_get_view d : forall d' k,
  map view d = map view d' ->
  option_map rview (dict_get String.eqb d k)
  = option_map rview (dict_get String.eqb d' k).
Proof.
  induction d as [|[k1 r1] d IH]; intros [|[k2 r2] d'] k H; simpl in *;
    try discriminate; [reflexivity|].
  unfold view in H at 1 3. unfold rview in H. simpl in H.
  injection H as Hk Hdesc Hstars Hd. subst k2.
  destruct (String.eqb k1 k); simpl; [|now apply IH].
  unfold rview. now rewrite Hdesc, Hstars.
Qed.

Lemma repos_of_view d d' ms :
  map view d = map view d' ->
  map view (repos_of d ms) = map view (repos_of d' ms).
Proof.
  intros H. induction ms as [|m ms IH]; simpl; [reflexivity|].
  pose proof (dict_get_view d d' (full_key m) H) as G.
  destruct (dict_get String.eqb d (full_key m)) as [r|],
           (dict_get String.eqb d' (full_key m)) as [r'|];
    simpl in G; try discriminate; [|exact IH].
  simpl. rewrite IH. unfold view at 1 3. simpl. congruence.
Qed.

Lemma insert_desc_map {A B} (f : A -> B) (key1 : A -> Z) (key2 : B -> Z) x l :
  (forall a, key2 (f a) = key1 a) ->
  map f (insert_desc key1 x l) = insert_desc key2 (f x) (map f l).
Proof.
  intros H. induction l as [|y l IH]; simpl; [reflexivity|].
  rewrite !H. destruct (key1 y <=? key1 x); simpl; [reflexivity | now rewrite IH].
Qed.

Lemma sorted_desc_map {A B} (f : A -> B) (key1 : A -> Z) (key2 : B -> Z) l :
  (forall a, key2 (f a) = key1 a) ->
  map f (sorted_desc key1 l) = sorted_desc key2 (map f l).
Proof.
  intros H. induction l as [|x l IH]; simpl; [reflexivity|].
  rewrite (insert_desc_map f key1 key2) by exact H. now rewrite IH.
Qed.

Lemma sort_repos_view mode l l' :
  map view l = map view l' ->
  map view (sort_repos mode l) = map view (sort_repos mode l').
Proof.
  intros H. unfold sort_repos. destruct (String.eqb mode "stars").
  - rewrite !(sorted_desc_map view (fun x => stars x.2) (fun v => v.2.2))
      by reflexivity.
    now rewrite H.
  - rewrite !map_rev. now rewrite H.
Qed.

Lemma view_keys l l' : map view l = map view l' -> map fst l = map fst l'.
Proof.
  intros H. apply (f_equal (map fst)) in H. rewrite !map_map in H. exact H.
Qed.

Lemma rows_text_view l : forall l', map view l = map view l' -> rows_text l = rows_text l'.
Proof.
  induction l as [|[k r] l IH]; intros [|[k' r'] l'] H; simpl in *;
    try discriminate; [reflexivity|].
  unfold view in H at 1 3. unfold rview in H. simpl in H.
  injection H as Hk Hd Hs Hl. subst. rewrite Hd, Hs. now rewrite (IH l').
Qed.

Lemma category_rows_view self d cat :
  map view d = map view (data self) ->
  map view (sort_repos (sort_by self) (repos_of d (members_of self cat.1)))
  = map view (category_rows self cat).
Proof.
  intros H. unfold category_rows. apply sort_repos_view. now apply repos_of_view.
Qed.

Lemma category_loop self cats : forall d t,
  map view d = map view (data self) ->
  fold_left (category_step (sort_by self) (star_list_repos self)) cats (d, t)
  = (mark_all (concat (map (fun cat => map fst (category_rows self cat)) cats)) d,
     t +:+ concat_text (map (category_text self) cats)).
Proof.
  induction cats as [|cat cats IH]; intros d t H; simpl.
  - now rewrite append_nil_r.
  - unfold category_step at 2. simpl. rewrite emit_rows. simpl.
    pose proof (category_rows_view self d cat H) as V.
    unfold members_of in V. rewrite IH by (now rewrite mark_all_view).
    rewrite mark_all_app. rewrite (view_keys _ _ V).
    rewrite (rows_text_view _ _ V). unfold category_text.
    now rewrite !append_assoc.
Qed.

Lemma generate_text_eq self :
  generate_text self
  = (mark_all (claimed_keys self) (data self),
     build_toc (map snd (star_lists self) ++ ["Uncategorized Repositories"])
     +:+ concat_text (map (category_text self) (star_lists self))
     +:+ uncategorized_text (mark_all (claimed_keys self) (data self))
           (unlisted (sort_by self) (mark_all (claimed_keys self) (data self)))).
Proof.
  unfold generate_text. rewrite category_loop by reflexivity. simpl.
  fold (claimed_keys self). f_equal.
  destruct (build_toc _); reflexivity.
Qed.

(** ** Marks *)

Lemma dict_alter_idem {V} (f : V -> V) d k :
  (forall v, f (f v) = f v) ->
  dict_alter String.eqb f (dict_alter String.eqb f d k) k
  = dict_alter String.eqb f d k.
Proof.
  intros Hf. induction d as [|[k' v] d IH]; simpl; [reflexivity|].
  destruct (String.eqb k' k) eqn:E; simpl; rewrite E; [now rewrite Hf | now rewrite IH].
Qed.

Lemma dict_alter_comm {V} (f : V -> V) d k1 k2 :
  dict_alter String.eqb f (dict_alter String.eqb f d k1) k2
  = dict_alter String.eqb f (dict_alter String.eqb f d k2) k1.
Proof.
  induction d as [|[k' v] d IH]; simpl; [reflexivity|].
  destruct (String.eqb k' k1) eqn:E1, (String.eqb k' k2) eqn:E2; simpl;
    rewrite ?E1, ?E2; try reflexivity.
  now rewrite IH.
Qed.

Lemma mark_all_alter ks : forall d k,
  dict_alter String.eqb set_listed (mark_all ks d) k
  = mark_all ks (dict_alter String.eqb set_listed d k).
Proof.
  induction ks as [|k0 ks IH]; intros d k; simpl; [reflexivity|].
  unfold mark_all in *. rewrite IH. now rewrite dict_alter_comm.
Qed.

Lemma mark_all_idem ks : forall d, mark_all ks (mark_all ks d) = mark_all ks d.
Proof.
  induction ks as [|k ks IH]; intros d; [reflexivity|].
  change (mark_all (k :: ks) d) with (mark_all ks (dict_alter String.eqb set_listed d k)).
  change (mark_all (k :: ks) ?x) with (mark_all ks (dict_alter String.eqb set_listed x k)).
  rewrite mark_all_alter, dict_alter_idem by reflexivity. apply IH.
Qed.

Lemma dict_get_alter {V} (f : V -> V) d k' k :
  dict_get String.eqb (dict_alter String.eqb f d k') k
  = if String.eqb k' k then option_map f (dict_get String.eqb d k)
    else dict_get String.eqb d k.
Proof.
  induction d as [|[k0 v] d IH]; simpl; [now destruct (String.eqb k' k)|].
  destruct (String.eqb k0 k') eqn:E1; simpl.
  - apply String.eqb_eq in E1. subst k0.
    destruct (String.eqb k' k); reflexivity.
  - destruct (String.eqb k0 k) eqn:E2; [|exact IH].
    apply String.eqb_eq in E2. subst k0. now rewrite String.eqb_sym, E1.
Qed.

(** After the marks of [ks], the record under a key is listed exactly when
    it was listed before or the key is among [ks]. *)
Lemma is_unlisted_mark_all ks : forall d k,
  is_unlisted (mark_all ks d) k = true <-> is_unlisted d k = true /\ ~ In k ks.
Proof.
  induction ks as [|k0 ks IH]; intros d k.
  - simpl. tauto.
  - change (mark_all (k0 :: ks) d) with (mark_all ks (dict_alter String.eqb set_listed d k0)).
    rewrite IH. unfold is_unlisted. rewrite dict_get_alter.
    destruct (String.eqb k0 k) eqn:E.
    + apply String.eqb_eq in E. subst k0.
      destruct (dict_get String.eqb d k); simpl; split;
        intros [H1 H2]; first [discriminate | exfalso; apply H2; now left].
    + apply String.eqb_neq in E. simpl. intuition congruence.
Qed.

Lemma mark_all_keys ks d : map fst (mark_all ks d) = map fst d.
Proof. apply view_keys, mark_all_view. Qed.

(** ** Rendering twice *)

Lemma category_rows_with_data self d cat :
  map view d = map view (data self) ->
  map view (category_rows (with_data self d) cat) = map view (category_rows self cat).
Proof. intros H. now apply (category_rows_view self d cat). Qed.

Lemma category_text_with_data self d :
  map view d = map view (data self) ->
  map (category_text (with_data self d)) (star_lists self)
  = map (category_text self) (star_lists self).
Proof.
  intros H. apply map_ext. intros cat. unfold category_text.
  now rewrite (rows_text_view _ _ (category_rows_with_data self d cat H)).
Qed.

Lemma claimed_keys_with_data self d :
  map view d = map view (data self) ->
  claimed_keys (with_data self d) = claimed_keys self.
Proof.
  intros H. unfold claimed_keys. simpl. f_equal. apply map_ext. intros cat.
  apply view_keys. now apply category_rows_with_data.
Qed.

Lemma generate_text_again self :
  generate_text (with_data self (generate_text self).1) = generate_text self.
Proof.
  rewrite (generate_text_eq self). simpl.
  rewrite generate_text_eq. simpl.
  rewrite claimed_keys_with_data by apply mark_all_view.
  rewrite category_text_with_data by apply mark_all_view.
  now rewrite mark_all_idem.
Qed.

(** C6. Running [generate_readme] a second time on the object the first
    run leaves behind (with the [listed] flags the first run has set)
    writes the same text, byte for byte, and leaves the same object. *)
Theorem generate_readme_twice (self : Stargazer) (template : option string) :
  let first := generate_readme self template in
  let second := generate_readme first.1 template in
  second.2 = first.2 /\ second.1 = first.1.
Proof.
  intros first second. subst first second. unfold generate_readme.
  pose proof (generate_text_again self) as A.
  destruct (generate_text self) as [d text]. cbn [fst snd] in *.
  rewrite A. split; reflexivity.
Qed.

(** ** Sorting *)

Lemma insert_desc_perm {A} (key : A -> Z) x l :
  Permutation (insert_desc key x l) (x :: l).
Proof.
  induction l as [|y l IH]; simpl; [reflexivity|].
  destruct (key y <=? key x); [reflexivity|].
  rewrite IH. apply perm_swap.
Qed.

Lemma sorted_desc_perm {A} (key : A -> Z) l : Permutation (sorted_desc key l) l.
Proof.
  induction l as [|x l IH]; simpl; [reflexivity|].
  rewrite insert_desc_perm. now rewrite IH.
Qed.

Lemma insert_desc_sorted {A} (key : A -> Z) x l :
  non_increasing (map key l) -> non_increasing (map key (insert_desc key x l)).
Proof.
  unfold non_increasing. induction l as [|y l IH]; simpl; intros H.
  - repeat constructor.
  - apply StronglySorted_inv in H as [Hl Hy].
    destruct (key y <=? key x) eqn:E; simpl.
    + apply Z.leb_le in E. constructor; [now constructor|].
      constructor; [lia|].
      eapply Forall_impl; [exact Hy|]. simpl. intros z Hz. lia.
    + apply Z.leb_gt in E. constructor; [now apply IH|].
      rewrite (Permutation_map key (insert_desc_perm key x l)). simpl.
      constructor; [lia | exact Hy].
Qed.

Lemma sorted_desc_sorted {A} (key : A -> Z) l :
  non_increasing (map key (sorted_desc key l)).
Proof.
  induction l as [|x l IH]; simpl; [constructor | now apply insert_desc_sorted].
Qed.

Lemma perm_In {A} (l l' : list A) x : Permutation l l' -> (In x l <-> In x l').
Proof.
  intros H. split; apply Permutation_in; [exact H | symmetry; exact H].
Qed.

Lemma sort_repos_perm mode l : Permutation (sort_repos mode l) l.
Proof.
  unfold sort_repos. destruct (String.eqb mode "stars");
    [apply sorted_desc_perm | symmetry; apply Permutation_rev].
Qed.

(** ** Membership in the tables *)

Lemma dict_get_In {V} (d : list (string * V)) k v :
  dict_get String.eqb d k = Some v -> In k (map fst d).
Proof.
  induction d as [|[k' v'] d IH]; simpl; [discriminate|].
  destruct (String.eqb k' k) eqn:E; [|now right; apply IH].
  apply String.eqb_eq in E. now left.
Qed.

Lemma repos_of_keys d ms k :
  In k (map fst (repos_of d ms))
  <-> In k (map full_key ms) /\ dict_get String.eqb d k <> None.
Proof.
  induction ms as [|m ms IH]; simpl; [tauto|].
  destruct (dict_get String.eqb d (full_key m)) as [r|] eqn:E; simpl; rewrite IH.
  - split; [intros [<-|[? ?]] | intros [[<-|?] ?]]; try tauto.
    split; [now left | congruence].
  - split; [tauto | intros [[<-|?] ?]; tauto].
Qed.

Lemma category_rows_keys self cat k :
  In k (map fst (category_rows self cat))
  <-> In k (map full_key (members_of self cat.1))
      /\ dict_get String.eqb (data self) k <> None.
Proof.
  unfold category_rows.
  rewrite (perm_In _ _ k (Permutation_map fst (sort_repos_perm _ _))).
  apply repos_of_keys.
Qed.

Lemma claimed_keys_In self k :
  In k (claimed_keys self)
  <-> exists cat, In cat (star_lists self)
                  /\ In k (map fst (category_rows self cat)).
Proof.
  unfold claimed_keys. rewrite in_concat. split.
  - intros (l & Hl & Hk). apply in_map_iff in Hl as (cat & <- & Hc). eauto.
  - intros (cat & Hc & Hk). eexists. split; [|exact Hk].
    apply in_map_iff. eauto.
Qed.

Lemma unlisted_In mode d k :
  In k (unlisted mode d) <-> In k (map fst d) /\ is_unlisted d k = true.
Proof.
  unfold unlisted. rewrite <- filter_In.
  destruct (String.eqb mode "stars").
  - apply perm_In, sorted_desc_perm.
  - symmetry. apply in_rev.
Qed.

(** C1, as the program has it.  A key of the mapping has a row in the table
    of every category whose membership list contains it, and a row in the
    last table exactly when its [listed] flag was loaded false and no
    category's membership list contains it. *)
Theorem table_membership (self : Stargazer) (k : string) (r : repo) :
  dict_get String.eqb (data self) k = Some r ->
  (forall cat, In cat (star_lists self) ->
     (In k (map fst (category_rows self cat))
      <-> In k (map full_key (members_of self cat.1))))
  /\ (In k (uncategorized_keys self)
      <-> listed r = false
          /\ forall cat, In cat (star_lists self) ->
               ~ In k (map full_key (members_of self cat.1))).
Proof.
  intros Hk. split.
  - intros cat _. rewrite category_rows_keys. rewrite Hk. intuition discriminate.
  - unfold uncategorized_keys. rewrite generate_text_eq. cbn [fst].
    rewrite unlisted_In, mark_all_keys, is_unlisted_mark_all, claimed_keys_In.
    unfold is_unlisted. rewrite Hk.
    split.
    + intros (_ & Hl & Hn). split; [now destruct (listed r)|].
      intros cat Hc Hm. apply Hn. exists cat. split; [exact Hc|].
      apply category_rows_keys. rewrite Hk. split; [exact Hm | discriminate].
    + intros (Hl & Hn). split; [now apply dict_get_In in Hk|].
      split; [now rewrite Hl|].
      intros (cat & Hc & Hm). apply (Hn cat Hc).
      now apply category_rows_keys in Hm.
Qed.

Lemma table_membership_witness :
  dict_get String.eqb (data (sample_self "stars")) "c/d"
  = Some {| html_url := "https://github.com/c/d"; description := "second";
            listed := false; stars := 7 |}
  /\ ((forall cat, In cat (star_lists (sample_self "stars")) ->
         (In "c/d" (map fst (category_rows (sample_self "stars") cat))
          <-> In "c/d" (map full_key (members_of (sample_self "stars") cat.1))))
      /\ (In "c/d" (uncategorized_keys (sample_self "stars"))
          <-> false = false
              /\ forall cat, In cat (star_lists (sample_self "stars")) ->
                   ~ In "c/d" (map full_key (members_of (sample_self "stars") cat.1)))).
Proof.
  split; [reflexivity|].
  apply (table_membership (sample_self "stars") "c/d"
           {| html_url := "https://github.com/c/d"; description := "second";
              listed := false; stars := 7 |}).
  reflexivity.
Defined.

(** C1, as stated, fails: a repository that two star lists contain has a
    row in the table of each of them (and a repository in no list whose
    [listed] flag was stored true has no row at all). *)
Lemma partition_fails_two_lists :
  table_keys two_lists_self = [["a/b"]; ["a/b"]; []]
  /\ ~ partition_property two_lists_self
  /\ table_keys listed_self = [[]]
  /\ ~ partition_property listed_self.
Proof.
  split; [vm_compute; reflexivity|].
  split; [intros H; specialize (H "a/b" (or_introl eq_refl));
          vm_compute in H; discriminate H|].
  split; [vm_compute; reflexivity|].
  intros H. specialize (H "a/b" (or_introl eq_refl)).
  vm_compute in H. discriminate H.
Qed.

(** ** Order of the rows *)

(** C2. The document is its table of contents followed by one table per
    category and the last table.  In the mode [stars] the star counts of
    the rows of every table never go up from a row to a later one; in every
    other mode the rows of a category table are the members of the list
    that the mapping knows, in the reverse of their scrape order, and the
    rows of the last table are the unlisted keys in the reverse of the
    order of the mapping. *)
Theorem table_order (self : Stargazer) :
  let d' := (generate_text self).1 in
  (generate_text self).2
  = build_toc (map snd (star_lists self) ++ ["Uncategorized Repositories"])
    +:+ concat_text (map (category_text self) (star_lists self))
    +:+ uncategorized_text d' (uncategorized_keys self)
  /\ if String.eqb (sort_by self) "stars" then
       (forall cat,
          non_increasing (map (fun kr => stars kr.2) (category_rows self cat)))
       /\ non_increasing (map (stars_of d') (uncategorized_keys self))
     else
       (forall cat,
          category_rows self cat
          = rev (repos_of (data self) (members_of self cat.1)))
       /\ uncategorized_keys self
          = rev (List.filter (is_unlisted d') (map fst (data self))).
Proof.
  intros d'. subst d'. unfold uncategorized_keys.
  rewrite generate_text_eq. cbn [fst snd]. split; [reflexivity|].
  unfold category_rows, unlisted, sort_repos.
  destruct (String.eqb (sort_by self) "stars").
  - split; [intros cat|]; apply sorted_desc_sorted.
  - split; [reflexivity|]. now rewrite mark_all_keys.
Qed.

(** ** The end-to-end example *)

(** C7. With the mapping of the example and no category, in every sort
    mode and whatever the stored address, the text is the table of contents followed by the last table
    with one data row, the row of the example; through a template that is
    the placeholder alone, this text without its final line breaks is what
    is written. *)
Theorem example_document (mode url : string) :
  uncategorized_keys (example_self mode url) = ["a/b"]
  /\ (generate_text (example_self mode url)).2
     = "## TOC" +:+ Py.nl +:+ Py.nl
       +:+ "- [Uncategorized Repositories](#uncategorized-repositories)" +:+ Py.nl
       +:+ "## Uncategorized Repositories" +:+ Py.nl +:+ Py.nl
       +:+ "| Repository | Description | Stars |" +:+ Py.nl
       +:+ "|----------|------|-------|" +:+ Py.nl
       +:+ "| [a/b](https://github.com/a/b) | x\|y | ⭐10 |" +:+ Py.nl
       +:+ Py.nl
  /\ (generate_readme (example_self mode url) (Some placeholder)).2
     = Ok ("## TOC" +:+ Py.nl +:+ Py.nl
           +:+ "- [Uncategorized Repositories](#uncategorized-repositories)" +:+ Py.nl
           +:+ "## Uncategorized Repositories" +:+ Py.nl +:+ Py.nl
           +:+ "| Repository | Description | Stars |" +:+ Py.nl
           +:+ "|----------|------|-------|" +:+ Py.nl
           +:+ "| [a/b](https://github.com/a/b) | x\|y | ⭐10 |").
Proof.
  unfold uncategorized_keys, generate_readme, generate_text, unlisted.
  cbn [example_self sort_by star_lists star_list_repos data fold_left fst snd].
  destruct (String.eqb mode "stars"); vm_compute; repeat split; reflexivity.
Qed.

(** ** Substitution into the template *)










(** ** Anchors of the table of contents *)

Lemma toc_anchors_counted sections : forall anchors,
  toc_anchors anchors sections
  = imap (fun i section =>
            unique_slug (slugify section)
              (default O (anchors !! slugify section)
               + slug_count (slugify section) (take i sections)))
         sections.
Proof.
  induction sections as [|s rest IH]; intros anchors; [reflexivity|].
  cbn [toc_anchors toc_step]. rewrite imap_cons. f_equal.
  - cbn [take]. unfold slug_count. cbn. now rewrite Nat.add_0_r.
  - rewrite IH. apply imap_ext. intros i x _. cbn [take].
    apply (f_equal (unique_slug (slugify x))).
    unfold slug_count, compose. cbn [take map List.filter].
    destruct (String.eqb (slugify x) (slugify s)) eqn:E.
    + apply String.eqb_eq in E. rewrite E, lookup_insert_eq.
      cbn [default from_option id length]. lia.
    + apply String.eqb_neq in E. rewrite lookup_insert_ne by congruence. reflexivity.
Qed.

Example slugify_pipeline : slugify "  Hello, World!  C++ " = "hello-world-c".
Proof. vm_compute. reflexivity. Qed.

Example slugify_fallback : slugify " !? " = "section".
Proof. vm_compute. reflexivity. Qed.


(** ** The data loader *)

Lemma key_eqb_string_l s k : key_eqb (JString s) k = true -> k = JString s.
Proof.
  destruct k; simpl; try discriminate.
  intros H. apply String.eqb_eq in H. now subst.
Qed.

Lemma key_eqb_string_r s k : key_eqb k (JString s) = true -> k = JString s.
Proof.
  destruct k; simpl; try discriminate.
  intros H. apply String.eqb_eq in H. now subst.
Qed.

Lemma dict_get_set_same {V} (d : list (json * V)) s v :
  dict_get key_eqb (dict_set key_eqb d (JString s) v) (JString s) = Some v.
Proof.
  induction d as [|[k0 v0] d IH]; simpl.
  - now rewrite String.eqb_refl.
  - destruct (key_eqb k0 (JString s)) eqn:E; simpl; rewrite E; [reflexivity | exact IH].
Qed.

Lemma dict_get_set_other {V} (d : list (json * V)) k' s v :
  k' <> JString s ->
  dict_get key_eqb (dict_set key_eqb d k' v) (JString s)
  = dict_get key_eqb d (JString s).
Proof.
  intros Hne. induction d as [|[k0 v0] d IH]; simpl.
  - destruct (key_eqb k' (JString s)) eqn:E; [|reflexivity].
    now apply key_eqb_string_r in E.
  - destruct (key_eqb k0 k') eqn:E1; simpl.
    + destruct (key_eqb k0 (JString s)) eqn:E2; [|reflexivity].
      apply key_eqb_string_r in E2. subst k0.
      now apply key_eqb_string_l in E1.
    + destruct (key_eqb k0 (JString s)); [reflexivity | exact IH].
Qed.

Lemma get_absent o k dflt : absent k o -> get o k dflt = dflt.
Proof.
  unfold absent. induction o as [|[k' v] o IH]; intros H; simpl; [reflexivity|].
  destruct (String.eqb k' k) eqn:E.
  - apply String.eqb_eq in E. subst k'. exfalso. apply (H v). now left.
  - apply IH. intros w Hw. apply (H w). now right.
Qed.

Section LoaderFacts.
Variable json_loads : string -> option json.

(** A store that does not exist loads as the empty mapping. *)
Lemma load_missing_store : load_data_from_jsonl json_loads None = Ok [].
Proof. reflexivity. Qed.


Lemma load_line_of_object data line o :
  line_object json_loads line = Some o ->
  load_line json_loads data line
  = if truthy (get o "full_name" JNull) then
      if hashable (get o "full_name" JNull)
      then Ok (dict_set key_eqb data (get o "full_name" JNull) (raw_of_obj o))
      else Raise TypeError
    else Ok data.
Proof.
  unfold line_object, load_line.
  destruct (String.eqb (Py.strip line) EmptyString); [discriminate|].
  destruct (json_loads (Py.strip line)) as [[]|]; try discriminate.
  now intros [= ->].
Qed.









(** C10. A line that holds a dict is taken into the mapping only when the
    value under [full_name] is truthy: otherwise the line changes nothing;
    when it is truthy (and can be a key) the record of the line is stored
    under it.  A field the dict lacks is the empty string for [html_url]
    and [description], [False] for [listed] and 0 for [stars]. *)
Theorem load_line_object (data : list (json * raw_repo)) (line : string)
    (o : list (string * json)) :
  line_object json_loads line = Some o ->
  (truthy (get o "full_name" JNull) = false ->
   load_line json_loads data line = Ok data)
  /\ (truthy (get o "full_name" JNull) = true ->
      hashable (get o "full_name" JNull) = true ->
      load_line json_loads data line
      = Ok (dict_set key_eqb data (get o "full_name" JNull) (raw_of_obj o)))
  /\ (absent "full_name" o -> load_line json_loads data line = Ok data)
  /\ (absent "html_url" o -> raw_html_url (raw_of_obj o) = JString EmptyString)
  /\ (absent "description" o -> raw_description (raw_of_obj o) = JString EmptyString)
  /\ (absent "listed" o -> raw_listed (raw_of_obj o) = JBool false)
  /\ (absent "stars" o -> raw_stars (raw_of_obj o) = JInt 0).
Proof.
  intros Ho. rewrite (load_line_of_object data line o Ho).
  repeat split.
  - now intros ->.
  - now intros -> ->.
  - intros Ha. now rewrite (get_absent o "full_name" JNull Ha).
  - apply get_absent.
  - apply get_absent.
  - apply get_absent.
  - apply get_absent.
Qed.

End LoaderFacts.

(** ** Writing the store and reading it back *)

Lemma rstrip_app_nl s : Py.rstrip (s +:+ Py.nl) = Py.rstrip s.
Proof.
  induction s as [|c s IH]; [reflexivity|].
  rewrite append_cons. cbn [Py.rstrip]. now rewrite IH.
Qed.

Lemma strip_app_nl s : Py.strip (s +:+ Py.nl) = Py.strip s.
Proof. unfold Py.strip. now rewrite rstrip_app_nl. Qed.

Lemma readlines_line s rest :
  no_line_break s = true ->
  Py.readlines ((s +:+ Py.nl) +:+ rest) = (s +:+ Py.nl) :: Py.readlines rest.
Proof.
  induction s as [|c s IH]; intros H; [reflexivity|].
  cbn [no_line_break] in H.
  apply andb_prop in H as [H Hs]. apply andb_prop in H as [Hlf Hcr].
  apply negb_true_iff in Hlf, Hcr.
  rewrite !append_cons. cbn [Py.readlines]. rewrite Hlf, Hcr.
  now rewrite (IH Hs).
Qed.

Lemma later_entries_keep k after : forall d : list (json * raw_repo),
  (forall e', In e' after -> full_name e' <> k) ->
  dict_get key_eqb
    (fold_left
       (fun d e => dict_set key_eqb d (JString (full_name e)) (raw_of_entry e))
       after d) (JString k)
  = dict_get key_eqb d (JString k).
Proof.
  induction after as [|e after IH]; intros d H; [reflexivity|].
  cbn [fold_left]. rewrite IH by (intros e' He'; apply H; now right).
  apply dict_get_set_other. intros [= E]. apply (H e); [now left | exact E].
Qed.

Lemma mapping_of_last before e after :
  (forall e', In e' after -> full_name e' <> full_name e) ->
  dict_get key_eqb (mapping_of (before ++ e :: after)) (JString (full_name e))
  = Some (raw_of_entry e).
Proof.
  intros H. unfold mapping_of. rewrite fold_left_app. cbn [fold_left].
  rewrite later_entries_keep by exact H. apply dict_get_set_same.
Qed.

Section RoundTrip.
Variable json_loads : string -> option json.
Variable json_dumps : json -> string.

Lemma readlines_write_entries entries :
  Forall (fun e => dumps_ok json_loads json_dumps (entry_json e)) entries ->
  Py.readlines (write_entries json_dumps entries)
  = map (fun e => json_dumps (entry_json e) +:+ Py.nl) entries.
Proof.
  induction 1 as [|e entries (_ & Hb & _) _ IH]; [reflexivity|].
  cbn [write_entries map]. now rewrite (readlines_line _ _ Hb), IH.
Qed.

Lemma load_line_entry data e :
  full_name e <> EmptyString ->
  dumps_ok json_loads json_dumps (entry_json e) ->
  load_line json_loads data (json_dumps (entry_json e) +:+ Py.nl)
  = Ok (dict_set key_eqb data (JString (full_name e)) (raw_of_entry e)).
Proof.
  intros Hn (He & _ & Hs & Hl).
  rewrite (load_line_of_object json_loads data _
             [("full_name", JString (full_name e));
              ("html_url", JString (e_html_url e));
              ("description", JString (e_description e));
              ("listed", JBool (e_listed e));
              ("stars", JInt (e_stars e))]).
  - cbn [get String.eqb Ascii.eqb Bool.eqb truthy hashable]. unfold nonempty.
    apply String.eqb_neq in Hn. rewrite Hn. reflexivity.
  - unfold line_object. rewrite strip_app_nl, Hs.
    apply String.eqb_neq in He. rewrite He, Hl. reflexivity.
Qed.

Lemma load_lines_entries entries : forall data,
  Forall (fun e => full_name e <> EmptyString) entries ->
  Forall (fun e => dumps_ok json_loads json_dumps (entry_json e)) entries ->
  load_lines json_loads data
    (map (fun e => json_dumps (entry_json e) +:+ Py.nl) entries)
  = Ok (fold_left
          (fun d e => dict_set key_eqb d (JString (full_name e)) (raw_of_entry e))
          entries data).
Proof.
  induction entries as [|e entries IH]; intros data Hn Hd; [reflexivity|].
  apply Forall_cons in Hn as [Hn Hns]. apply Forall_cons in Hd as [Hd Hds].
  cbn [map load_lines fold_left]. rewrite (load_line_entry data e Hn Hd).
  now apply IH.
Qed.

(** C3. Records written one per line, each with [json.dumps] and a line
    break, load as the mapping keyed by their names: every name is a key,
    and the record under it has the five fields as written ([listed]
    included) of the last record of this name.  The names are not empty,
    as the names of repositories are; [json.dumps] and [json.loads] are
    taken to agree on the records written. *)
Theorem store_round_trip (entries : list entry) :
  Forall (fun e => full_name e <> EmptyString) entries ->
  Forall (fun e => dumps_ok json_loads json_dumps (entry_json e)) entries ->
  load_data_from_jsonl json_loads (Some (write_entries json_dumps entries))
  = Ok (mapping_of entries)
  /\ forall before e after,
       entries = before ++ e :: after ->
       (forall e', In e' after -> full_name e' <> full_name e) ->
       dict_get key_eqb (mapping_of entries) (JString (full_name e))
       = Some (raw_of_entry e).
Proof.
  intros Hn Hd. split.
  - unfold load_data_from_jsonl. rewrite (readlines_write_entries entries Hd).
    now apply load_lines_entries.
  - intros before e after -> H. now apply mapping_of_last.
Qed.

End RoundTrip.

(** What [get_all_starred] writes is read back with [listed] false and a
    missing description as the empty string. *)
Corollary get_all_starred_round_trip json_loads json_dumps pages :
  let entries := map entry_of_api (concat pages) in
  Forall (fun e => full_name e <> EmptyString) entries ->
  Forall (fun e => dumps_ok json_loads json_dumps (entry_json e)) entries ->
  load_data_from_jsonl json_loads (Some (get_all_starred json_dumps pages))
  = Ok (mapping_of entries)
  /\ Forall (fun kr => raw_listed kr.2 = JBool false) (mapping_of entries).
Proof.
  intros entries Hn Hd. split.
  - unfold get_all_starred, load_data_from_jsonl. fold entries.
    rewrite (readlines_write_entries json_loads json_dumps entries Hd).
    now apply load_lines_entries.
  - unfold mapping_of. subst entries. generalize (concat pages). intros l.
    assert (G : forall d : list (json * raw_repo),
              Forall (fun kr => raw_listed kr.2 = JBool false) d ->
              Forall (fun kr => raw_listed kr.2 = JBool false)
                (fold_left
                   (fun d e =>
                      dict_set key_eqb d (JString (full_name e)) (raw_of_entry e))
                   (map entry_of_api l) d)).
    { induction l as [|r l IH]; intros d H; [exact H|].
      cbn [map fold_left]. apply IH. clear IH.
      induction d as [|[k0 v0] d IHd]; cbn [dict_set].
      - now repeat constructor.
      - apply Forall_cons in H as [H0 H].
        destruct (key_eqb k0 (JString (full_name (entry_of_api r)))).
        + now constructor.
        + constructor; [exact H0 | now apply IHd]. }
    apply G. constructor.
Qed.

Lemma sample_entries_named :
  Forall (fun e => full_name e <> EmptyString) sample_entries.
Proof. repeat constructor; discriminate. Defined.

Lemma sample_entries_dumps_ok :
  Forall (fun e => dumps_ok MiniJson.loads MiniJson.dumps (entry_json e))
    sample_entries.
Proof.
  repeat constructor; first [discriminate | vm_compute; reflexivity].
Defined.

Lemma store_round_trip_witness :
  load_data_from_jsonl MiniJson.loads
    (Some (write_entries MiniJson.dumps sample_entries))
  = Ok (mapping_of sample_entries)
  /\ forall before e after,
       sample_entries = before ++ e :: after ->
       (forall e', In e' after -> full_name e' <> full_name e) ->
       dict_get key_eqb (mapping_of sample_entries) (JString (full_name e))
       = Some (raw_of_entry e).
Proof.
  apply (store_round_trip MiniJson.loads MiniJson.dumps sample_entries
           sample_entries_named sample_entries_dumps_ok).
Defined.

Example mapping_of_sample_entries :
  mapping_of sample_entries
  = [(JString "a/b",
      {| raw_html_url := JString "https://github.com/a/b";
         raw_description := JString "again";
         raw_listed := JBool true; raw_stars := JInt 11 |});
     (JString "c/d",
      {| raw_html_url := JString "https://github.com/c/d";
         raw_description := JString EmptyString;
         raw_listed := JBool false; raw_stars := JInt 0 |})].
Proof. vm_compute. reflexivity. Qed.



Lemma load_line_object_witness :
  line_object MiniJson.loads
    (MiniJson.dumps (JObject [("stars", JInt 4)]) +:+ Py.nl)
  = Some [("stars", JInt 4)]
  /\ load_line MiniJson.loads []
       (MiniJson.dumps (JObject [("stars", JInt 4)]) +:+ Py.nl)
     = Ok []
  /\ raw_of_obj [("stars", JInt 4)]
     = {| raw_html_url := JString EmptyString;
          raw_description := JString EmptyString;
          raw_listed := JBool false; raw_stars := JInt 4 |}.
Proof.
  split; [vm_compute; reflexivity|].
  split; [|reflexivity].
  apply (load_line_object MiniJson.loads []
           (MiniJson.dumps (JObject [("stars", JInt 4)]) +:+ Py.nl)
           [("stars", JInt 4)]).
  - vm_compute. reflexivity.
  - intros v [H|[]]. discriminate H.
Defined.

Section NeverFails.
Variable json_loads : string -> option json.


End NeverFails.



(** The lines the loader does skip: the blank line and the line that is
    not JSON of [mixed_store] leave the other records in place. *)
Example load_mixed_store :
  load_data_from_jsonl MiniJson.loads (Some mixed_store)
  = Ok (mapping_of sample_entries).
Proof. vm_compute. reflexivity. Qed.

(** ** From the store to the document *)

Lemma data_of_raw_set d : forall k r d' r',
  data_of_raw d = Some d' -> repo_of_raw r = Some r' ->
  data_of_raw (dict_set key_eqb d (JString k) r)
  = Some (dict_set String.eqb d' k r').
Proof.
  induction d as [|[k0 r0] d IH]; intros k r d' r' Hd Hr.
  - injection Hd as <-. cbn. now rewrite Hr.
  - cbn [data_of_raw] in Hd. destruct k0; try discriminate.
    destruct (repo_of_raw r0) as [r0'|] eqn:E0; [|discriminate].
    destruct (data_of_raw d) as [rest|] eqn:Ed; [|discriminate].
    injection Hd as <-. cbn [dict_set key_eqb].
    destruct (String.eqb s k); cbn [data_of_raw].
    + now rewrite Hr, Ed.
    + now rewrite E0, (IH k r rest r' eq_refl Hr).
Qed.

(** The mapping loaded from records of the store is one the renderer
    works on. *)
Lemma data_of_raw_mapping entries :
  exists d, data_of_raw (mapping_of entries) = Some d.
Proof.
  unfold mapping_of.
  assert (G : forall d0 d0', data_of_raw d0 = Some d0' ->
            exists d, data_of_raw
                        (fold_left
                           (fun d e =>
                              dict_set key_eqb d (JString (full_name e))
                                (raw_of_entry e))
                           entries d0) = Some d).
  { induction entries as [|e entries IH]; intros d0 d0' H; [now exists d0'|].
    cbn [fold_left]. eapply IH.
    apply data_of_raw_set; [exact H | reflexivity]. }
  now apply (G [] []).
Qed.

(** The store written for the repository of the example loads as the
    mapping of the example. *)
Example example_loaded :
  option_map data_of_raw
    (match load_data_from_jsonl MiniJson.loads
             (Some (get_all_starred MiniJson.dumps
                      [[ {| api_full_name := "a/b";
                            api_html_url := "https://github.com/a/b";
                            api_description := Some "x|y";
                            api_stargazers_count := 10 |} ]]))
     with Ok d => Some d | Raise _ => None end)
  = Some (Some (data (example_self "stars" "https://github.com/a/b"))).
Proof. vm_compute. reflexivity. Qed.

(** * Further properties *)

(** ** Rows of the tables *)

Lemma insert_desc_filter {A} (key : A -> Z) (n : Z) x l :
  List.filter (fun y => key y =? n) (insert_desc key x l)
  = if key x =? n then x :: List.filter (fun y => key y =? n) l
    else List.filter (fun y => key y =? n) l.
Proof.
  induction l as [|y l IH]; cbn [insert_desc List.filter]; [reflexivity|].
  destruct (key y <=? key x) eqn:E.
  - cbn [List.filter]. reflexivity.
  - cbn [List.filter]. rewrite IH.
    destruct (key x =? n) eqn:Ex; [|reflexivity].
    apply Z.eqb_eq in Ex. apply Z.leb_gt in E.
    destruct (key y =? n) eqn:Ey; [|reflexivity].
    apply Z.eqb_eq in Ey. lia.
Qed.

Lemma sorted_desc_filter {A} (key : A -> Z) (n : Z) l :
  List.filter (fun y => key y =? n) (sorted_desc key l)
  = List.filter (fun y => key y =? n) l.
Proof.
  induction l as [|x l IH]; cbn [sorted_desc List.filter]; [reflexivity|].
  rewrite insert_desc_filter, IH. reflexivity.
Qed.

(** X1. In the mode [stars], the rows of a table that show the same number
    of stars stand in the order of the input: for a category table the
    scrape order of the list, for the last table the order of the
    mapping. *)
Theorem equal_stars_keep_order (self : Stargazer) (n : Z) :
  sort_by self = "stars" ->
  (forall cat,
     List.filter (fun kr => stars kr.2 =? n) (category_rows self cat)
     = List.filter (fun kr => stars kr.2 =? n)
         (repos_of (data self) (members_of self cat.1)))
  /\ List.filter (fun k => stars_of (generate_text self).1 k =? n)
       (uncategorized_keys self)
     = List.filter (fun k => stars_of (generate_text self).1 k =? n)
         (List.filter (is_unlisted (generate_text self).1) (map fst (data self))).
Proof.
  intros Hm. unfold category_rows, uncategorized_keys, unlisted, sort_repos.
  rewrite Hm. cbn [String.eqb Ascii.eqb Bool.eqb]. split.
  - intros cat. apply (sorted_desc_filter (fun kr => stars kr.2)).
  - rewrite sorted_desc_filter. rewrite generate_text_eq. cbn [fst].
    now rewrite mark_all_keys.
Qed.

Lemma equal_stars_keep_order_witness :
  List.filter (fun kr => stars kr.2 =? 3)
    (category_rows (sample_self "stars") ("tools", "Tools"))
  = List.filter (fun kr => stars kr.2 =? 3)
      (repos_of (data (sample_self "stars"))
         (members_of (sample_self "stars") "tools")).
Proof.
  apply (equal_stars_keep_order (sample_self "stars") 3). reflexivity.
Defined.

Lemma repos_of_known d ms :
  map fst (repos_of d ms) = List.filter (known d) (map full_key ms).
Proof.
  induction ms as [|m ms IH]; cbn [repos_of map List.filter]; [reflexivity|].
  unfold known at 1.
  destruct (dict_get String.eqb d (full_key m)); cbn [map fst]; now rewrite IH.
Qed.

(** X2. The table of a category has one row for every entry of its
    membership list whose repository is a key of the mapping (an entry
    that occurs twice gives two rows) and no other row: the entries the
    mapping does not know are dropped, nothing else is. *)
Theorem category_rows_are_known_members (self : Stargazer) (cat : string * string) :
  Permutation (map fst (category_rows self cat))
    (List.filter (known (data self)) (map full_key (members_of self cat.1)))
  /\ Forall (fun kr => dict_get String.eqb (data self) kr.1 = Some kr.2)
       (category_rows self cat).
Proof.
  split.
  - rewrite <- repos_of_known. apply Permutation_map, sort_repos_perm.
  - unfold category_rows.
    rewrite (sort_repos_perm (sort_by self) _).
    generalize (members_of self cat.1). intros ms.
    induction ms as [|m ms IH]; cbn [repos_of]; [constructor|].
    destruct (dict_get String.eqb (data self) (full_key m)) eqn:E;
      [constructor; [exact E | exact IH] | exact IH].
Qed.

(** ** The mapping after a pass *)

Lemma dict_get_mark_all ks : forall d k,
  dict_get String.eqb (mark_all ks d) k
  = if existsb (String.eqb k) ks
    then option_map set_listed (dict_get String.eqb d k)
    else dict_get String.eqb d k.
Proof.
  induction ks as [|k0 ks IH]; intros d k; [reflexivity|].
  change (mark_all (k0 :: ks) d)
    with (mark_all ks (dict_alter String.eqb set_listed d k0)).
  rewrite IH, dict_get_alter. cbn [existsb].
  rewrite (String.eqb_sym k k0).
  destruct (String.eqb k0 k), (existsb (String.eqb k) ks); cbn [orb];
    try reflexivity.
  now destruct (dict_get String.eqb d k).
Qed.

Lemma existsb_eqb_In k ks : existsb (String.eqb k) ks = true <-> In k ks.
Proof.
  rewrite existsb_exists. split.
  - intros (x & Hx & E). apply String.eqb_eq in E. now subst.
  - intros H. exists k. split; [exact H | apply String.eqb_refl].
Qed.

Lemma claimed_keys_lists self k r :
  dict_get String.eqb (data self) k = Some r ->
  (In k (claimed_keys self) <-> in_some_list self k).
Proof.
  intros Hk. rewrite claimed_keys_In. unfold in_some_list.
  split; intros (cat & Hc & H); exists cat; (split; [exact Hc|]).
  - now apply category_rows_keys in H.
  - apply category_rows_keys. split; [exact H | congruence].
Qed.

Lemma generate_readme_state self template :
  (generate_readme self template).1 = with_data self (generate_text self).1.
Proof. unfold generate_readme. now destruct (generate_text self). Qed.

(** X3. A pass of [generate_readme], with or without a template to read,
    changes nothing of the object but [listed] flags: the settings, the
    lists and the keys of the mapping with their order stay, and the record
    of a key keeps its address, description and stars; its flag is true
    afterwards exactly when it was true before or some star list has the
    key among its members.  No flag goes back to false. *)
Theorem generate_readme_keeps_records (self : Stargazer)
    (template : option string) (k : string) (r : repo) :
  dict_get String.eqb (data self) k = Some r ->
  let self' := (generate_readme self template).1 in
  sort_by self' = sort_by self
  /\ star_lists self' = star_lists self
  /\ star_list_repos self' = star_list_repos self
  /\ map fst (data self') = map fst (data self)
  /\ exists r',
       dict_get String.eqb (data self') k = Some r'
       /\ html_url r' = html_url r
       /\ description r' = description r
       /\ stars r' = stars r
       /\ (listed r' = true <-> listed r = true \/ in_some_list self k).
Proof.
  intros Hk self'. subst self'. rewrite generate_readme_state.
  rewrite generate_text_eq. cbn [with_data sort_by star_lists star_list_repos data fst].
  repeat split; try reflexivity; [apply mark_all_keys|].
  rewrite dict_get_mark_all, Hk.
  destruct (existsb (String.eqb k) (claimed_keys self)) eqn:E.
  - apply existsb_eqb_In in E. apply (claimed_keys_lists self k r Hk) in E.
    exists (set_listed r). cbn. repeat split; auto.
  - exists r. repeat split; auto. intros [H|H]; [exact H|].
    apply (claimed_keys_lists self k r Hk), existsb_eqb_In in H. congruence.
Qed.

Lemma generate_readme_keeps_records_witness :
  exists r',
    dict_get String.eqb
      (data (generate_readme (sample_self "name") None).1) "c/d" = Some r'
    /\ html_url r' = "https://github.com/c/d"
    /\ description r' = "second"
    /\ stars r' = 7
    /\ (listed r' = true
        <-> false = true \/ in_some_list (sample_self "name") "c/d").
Proof.
  apply (generate_readme_keeps_records (sample_self "name") None "c/d"
           {| html_url := "https://github.com/c/d"; description := "second";
              listed := false; stars := 7 |}).
  reflexivity.
Defined.

Lemma In_keys_dict_get {V} (d : list (string * V)) k :
  In k (map fst d) -> exists v, dict_get String.eqb d k = Some v.
Proof.
  induction d as [|[k' v'] d IH]; cbn [map fst In dict_get]; [tauto|].
  intros [->|H].
  - rewrite String.eqb_refl. eauto.
  - destruct (String.eqb k' k); eauto.
Qed.

Lemma filter_nil_iff {A} (f : A -> bool) l :
  List.filter f l = [] <-> forall x, In x l -> f x = false.
Proof.
  induction l as [|y l IH]; cbn [List.filter In]; [tauto|].
  destruct (f y) eqn:E.
  - split; [discriminate|]. intros H. specialize (H y (or_introl eq_refl)). congruence.
  - rewrite IH. split; [intros H x [<-|Hx]; auto | intros H x Hx; auto].
Qed.

Lemma unlisted_nil_iff mode d :
  unlisted mode d = [] <-> forall k, In k (map fst d) -> is_unlisted d k = false.
Proof.
  rewrite <- filter_nil_iff. unfold unlisted.
  destruct (String.eqb mode "stars").
  - split; intros H.
    + apply Permutation_nil. rewrite <- H. apply sorted_desc_perm.
    + now rewrite H.
  - split; intros H.
    + apply (f_equal (@rev string)) in H. now rewrite rev_involutive in H.
    + now rewrite H.
Qed.

(** X4. The last table holds the single row [All repositories are
    categorized] exactly when every key of the mapping was loaded with
    [listed] true or is a member of some star list; the table body is then
    this row and nothing else. *)
Theorem placeholder_row_when_all_categorized (self : Stargazer) :
  (uncategorized_keys self = []
   <-> forall k r, dict_get String.eqb (data self) k = Some r ->
                   listed r = true \/ in_some_list self k)
  /\ uncategorized_text (generate_text self).1 []
     = table_head "Uncategorized Repositories" +:+ placeholder_row +:+ Py.nl.
Proof.
  split; [|reflexivity].
  unfold uncategorized_keys. rewrite generate_text_eq. cbn [fst].
  rewrite unlisted_nil_iff, mark_all_keys. split.
  - intros H k r Hk. specialize (H k (dict_get_In _ _ _ Hk)).
    destruct (listed r) eqn:L; [now left | right].
    apply (claimed_keys_lists self k r Hk).
    destruct (in_dec String.string_dec k (claimed_keys self)) as [Hin|Hn]; [exact Hin|].
    exfalso.
    assert (U : is_unlisted (mark_all (claimed_keys self) (data self)) k = true).
    { apply is_unlisted_mark_all. split; [|exact Hn].
      unfold is_unlisted. now rewrite Hk, L. }
    congruence.
  - intros H k Hin. destruct (In_keys_dict_get _ _ Hin) as [r Hk].
    destruct (is_unlisted (mark_all (claimed_keys self) (data self)) k) eqn:U;
      [|reflexivity].
    apply is_unlisted_mark_all in U as [U Hn]. unfold is_unlisted in U.
    rewrite Hk in U. destruct (H k r Hk) as [L|L].
    + rewrite L in U. discriminate.
    + apply (claimed_keys_lists self k r Hk) in L. contradiction.
Qed.

(** ** Escaped descriptions *)

Lemma prefix_char x c s :
  String.prefix (String x EmptyString) (String c s) = Ascii.eqb c x.
Proof.
  cbn [String.prefix]. destruct (ascii_dec x c) as [<-|N].
  - rewrite Ascii.eqb_refl. now destruct s.
  - symmetry. apply Ascii.eqb_neq. congruence.
Qed.

Lemma escape_pipe_cons c s :
  Py.replace "|" "\|" (String c s)
  = (if Ascii.eqb c "|"%char then "\|" else String c EmptyString)
    +:+ Py.replace "|" "\|" s.
Proof.
  unfold Py.replace. cbn [Py.replace_from].
  rewrite prefix_char. now destruct (Ascii.eqb c "|"%char).
Qed.

Lemma escape_pipe_head s :
  match Py.replace "|" "\|" s with
  | String c _ => Ascii.eqb c "|"%char = false
  | EmptyString => True
  end.
Proof.
  destruct s as [|c s]; [exact I|]. rewrite escape_pipe_cons.
  destruct (Ascii.eqb c "|"%char) eqn:E; [reflexivity | exact E].
Qed.

Lemma escape_pipe_escaped s : forall b,
  pipes_escaped b (Py.replace "|" "\|" s) = true.
Proof.
  induction s as [|c s IH]; intros b; [reflexivity|].
  rewrite escape_pipe_cons. destruct (Ascii.eqb c "|"%char) eqn:E.
  - rewrite !append_cons, append_nil_l. cbn [pipes_escaped].
    apply Ascii.eqb_eq in E. subst c. destruct b; apply IH.
  - rewrite append_cons, append_nil_l. cbn [pipes_escaped].
    rewrite E. apply IH.
Qed.

Lemma unescape_step s :
  Py.replace "\|" "|" (String "\"%char (String "|"%char s))
  = String "|"%char (Py.replace "\|" "|" s).
Proof.
  unfold Py.replace. cbn [Py.replace_from].
  replace (String.prefix "\|" (String "\"%char (String "|"%char s))) with true
    by (cbn [String.prefix]; now destruct s).
  reflexivity.
Qed.

Lemma unescape_other c s :
  String.prefix "\|" (String c s) = false ->
  Py.replace "\|" "|" (String c s) = String c (Py.replace "\|" "|" s).
Proof.
  intros H. unfold Py.replace. cbn [Py.replace_from]. now rewrite H.
Qed.

(** X5. In the description cell of a row every [|] stands right after a
    backslash, so no character of a description ends the cell; and the
    description is recovered from the cell by replacing each backslash
    followed by [|] with [|]: the escape loses nothing. *)
Theorem description_cell_escaped (desc : string) :
  pipes_escaped false (Py.replace "|" "\|" desc) = true
  /\ Py.replace "\|" "|" (Py.replace "|" "\|" desc) = desc.
Proof.
  split; [apply escape_pipe_escaped|].
  induction desc as [|c s IH]; [reflexivity|].
  rewrite escape_pipe_cons. destruct (Ascii.eqb c "|"%char) eqn:E.
  - apply Ascii.eqb_eq in E. subst c.
    rewrite !append_cons, append_nil_l, unescape_step. now rewrite IH.
  - rewrite append_cons, append_nil_l.
    rewrite unescape_other; [now rewrite IH|].
    cbn [String.prefix]. destruct (ascii_dec "\"%char c); [|reflexivity].
    pose proof (escape_pipe_head s) as Hh.
    destruct (Py.replace "|" "\|" s) as [|c' t]; [reflexivity|].
    rewrite prefix_char. exact Hh.
Qed.

(** ** Slugs *)












Lemma all_chars_nonempty_section : all_chars slug_char "section" = true.
Proof. reflexivity. Qed.










(** ** Trimming and case *)










(** ** Anchors *)

Lemma string_length_app a b :
  String.length (a +:+ b) = (String.length a + String.length b)%nat.
Proof.
  induction a as [|x a IH]; [reflexivity|].
  rewrite append_cons. cbn [String.length]. now rewrite IH.
Qed.

Lemma str_of_int_read z :
  option_map Z.of_int (NilZero.int_of_string (Py.str_of_int z)) = Some z.
Proof.
  unfold Py.str_of_int.
  assert (G : forall d, option_map Z.of_int
                          (NilZero.int_of_string (NilZero.string_of_int d))
                        = Some (Z.of_int d)).
  { intros [u|u]; destruct u;
      first [ reflexivity
            | rewrite NilZero.isi by discriminate; reflexivity ]. }
  rewrite G. f_equal. apply DecimalZ.of_to.
Qed.

Lemma unique_slug_inj slug a b : unique_slug slug a = unique_slug slug b -> a = b.
Proof.
  assert (L : forall n, slug <> slug +:+ "-" +:+ Py.str_of_int (Z.of_nat (S n))).
  { intros n H. apply (f_equal String.length) in H.
    rewrite !string_length_app in H. cbn [String.length] in H. lia. }
  destruct a as [|a], b as [|b]; cbn [unique_slug]; intros H.
  - reflexivity.
  - now apply L in H.
  - symmetry in H. now apply L in H.
  - apply String.app_inj in H. apply String.app_inj in H.
    apply (f_equal (fun s => option_map Z.of_int (NilZero.int_of_string s))) in H.
    rewrite !str_of_int_read in H. injection H as H. lia.
Qed.

Lemma slug_count_grows slug l : forall i j si,
  (i < j)%nat -> l !! i = Some si -> slugify si = slug ->
  (slug_count slug (take i l) < slug_count slug (take j l))%nat.
Proof.
  unfold slug_count.
  induction l as [|x l IH]; intros i j si Hij Hi Hs; [discriminate|].
  destruct j as [|j]; [lia|]. destruct i as [|i].
  - cbn in Hi. injection Hi as ->. cbn [take map List.filter length].
    rewrite Hs, String.eqb_refl. cbn [length]. lia.
  - cbn in Hi. cbn [take map List.filter].
    specialize (IH i j si (proj2 (Nat.succ_lt_mono i j) Hij) Hi Hs).
    destruct (String.eqb slug (slugify x)); cbn [length]; lia.
Qed.

(** X9. Two sections with the same slug never get the same anchor: the
    later one carries a different suffix. *)
Theorem same_slug_anchors_differ (sections : list string) (i j : nat)
    (si sj : string) :
  (i < j)%nat ->
  sections !! i = Some si ->
  sections !! j = Some sj ->
  slugify si = slugify sj ->
  toc_anchors ∅ sections !! i <> toc_anchors ∅ sections !! j.
Proof.
  intros Hij Hi Hj Hs. rewrite toc_anchors_counted, !list_lookup_imap, Hi, Hj.
  cbn [fmap option_fmap option_map]. rewrite !lookup_empty. cbn [default from_option].
  rewrite Hs. intros [= H]. apply unique_slug_inj in H.
  pose proof (slug_count_grows (slugify sj) sections i j si Hij Hi Hs). lia.
Qed.

Lemma same_slug_anchors_differ_witness :
  toc_anchors ∅ ["Go"; "tools"; "go"] !! 0%nat
  <> toc_anchors ∅ ["Go"; "tools"; "go"] !! 2%nat.
Proof.
  apply (same_slug_anchors_differ ["Go"; "tools"; "go"] 0 2 "Go" "go");
    [lia | reflexivity | reflexivity | vm_compute; reflexivity].
Defined.

Lemma join_lines entries :
  Py.join Py.nl (entries ++ [EmptyString])
  = concat_text (map (fun line => line +:+ Py.nl) entries).
Proof.
  unfold Py.join. induction entries as [|e es IH]; [reflexivity|].
  cbn [app map concat_text fold_right]. unfold concat_text in IH. rewrite <- IH.
  cbn [String.concat]. destruct (es ++ [EmptyString]) eqn:E.
  - now apply app_eq_nil in E as [_ ?].
  - now rewrite append_assoc.
Qed.

(** X10. The table of contents is the empty text exactly when every name
    is empty; otherwise it is the heading, an empty line, and one entry
    line for every name that is not empty, in the order of the names,
    every line ended by a line break.  Empty names get no entry. *)
Theorem build_toc_entries (sections : list string) :
  (build_toc sections = EmptyString <-> Forall (fun s => s = EmptyString) sections)
  /\ (List.filter nonempty sections <> [] ->
      build_toc sections
      = "## TOC" +:+ Py.nl +:+ Py.nl
        +:+ concat_text
              (map (fun line => line +:+ Py.nl)
                 (zip_with toc_line (List.filter nonempty sections)
                    (toc_anchors ∅ (List.filter nonempty sections))))).
Proof.
  assert (S : List.filter nonempty sections <> [] ->
              build_toc sections
              = "## TOC" +:+ Py.nl +:+ Py.nl
                +:+ concat_text
                      (map (fun line => line +:+ Py.nl)
                         (zip_with toc_line (List.filter nonempty sections)
                            (toc_anchors ∅ (List.filter nonempty sections))))).
  { intros Hne. unfold build_toc.
    destruct (List.filter nonempty sections) as [|y ys] eqn:E; [contradiction|].
    rewrite <- join_lines. cbn [app]. unfold Py.join. cbn [String.concat].
    destruct (zip_with toc_line (y :: ys) (toc_anchors ∅ (y :: ys)) ++ [EmptyString])
      eqn:Z; [now apply app_eq_nil in Z as [_ ?]|].
    reflexivity. }
  split; [|exact S]. split.
  - intros H. destruct (List.filter nonempty sections) as [|y ys] eqn:E.
    + apply List.Forall_forall. intros s Hs.
      destruct (nonempty s) eqn:N.
      * assert (F : In s (List.filter nonempty sections))
          by (apply List.filter_In; split; assumption).
        rewrite E in F. contradiction.
      * unfold nonempty in N. apply negb_false_iff in N. now apply String.eqb_eq.
    + rewrite S in H by discriminate. discriminate H.
  - intros H. unfold build_toc.
    replace (List.filter nonempty sections) with (@nil string); [reflexivity|].
    symmetry. apply filter_nil_iff. intros s Hs.
    rewrite List.Forall_forall in H. now rewrite (H s Hs).
Qed.

(** ** Keys and records of the loaded mapping *)

Lemma map_fst_dict_set {V} (d : list (json * V)) k v :
  map fst (dict_set key_eqb d k v) = add_key (map fst d) k.
Proof.
  unfold add_key. induction d as [|[k0 v0] d IH]; [reflexivity|].
  cbn [dict_set map fst existsb].
  destruct (key_eqb k0 k); [reflexivity|]. cbn [map fst orb]. rewrite IH.
  now destruct (existsb (fun k' => key_eqb k' k) (map fst d)).
Qed.

Lemma existsb_add_key (p : json -> bool) keys k :
  existsb p (add_key keys k) = true -> existsb p keys = true \/ p k = true.
Proof.
  unfold add_key. destruct (existsb _ keys); [now left|].
  rewrite existsb_app. cbn [existsb]. rewrite orb_false_r.
  intros H. apply orb_prop in H. exact H.
Qed.

Lemma distinct_add_key keys k :
  distinct_keys keys = true -> distinct_keys (add_key keys k) = true.
Proof.
  induction keys as [|k0 keys IH]; [reflexivity|].
  cbn [distinct_keys]. intros H. apply andb_prop in H as [H0 H].
  apply negb_true_iff in H0.
  assert (E : add_key (k0 :: keys) k
              = if key_eqb k0 k then k0 :: keys else k0 :: add_key keys k).
  { unfold add_key. cbn [existsb]. destruct (key_eqb k0 k); [reflexivity|].
    cbn [orb]. now destruct (existsb (fun k' => key_eqb k' k) keys). }
  rewrite E. destruct (key_eqb k0 k) eqn:K.
  - cbn [distinct_keys]. now rewrite H0, H.
  - cbn [distinct_keys]. rewrite (IH H), andb_true_r. apply negb_true_iff.
    destruct (existsb (fun k' => key_eqb k0 k') (add_key keys k)) eqn:X;
      [|reflexivity].
    apply existsb_add_key in X as [X|X]; congruence.
Qed.

Section LoadedMapping.
Variable json_loads : string -> option json.

Lemma load_line_record data line data' :
  load_line json_loads data line = Ok data' ->
  data' = match line_record json_loads line with
          | Some (k, r) => dict_set key_eqb data k r
          | None => data
          end
  /\ match line_record json_loads line with
     | Some (k, _) => hashable k = true
     | None => True
     end.
Proof.
  unfold line_record.
  destruct (line_object json_loads line) as [o|] eqn:E.
  - rewrite (load_line_of_object json_loads data line o E).
    destruct (truthy _); [|now intros [= <-]].
    destruct (hashable _); [now intros [= <-] | discriminate].
  - unfold line_object in E. unfold load_line.
    destruct (String.eqb (Py.strip line) EmptyString); [now intros [= <-]|].
    destruct (json_loads (Py.strip line)) as [[]|]; try discriminate;
      now intros [= <-].
Qed.

Lemma line_record_truthy line k r :
  line_record json_loads line = Some (k, r) -> truthy k = true.
Proof.
  unfold line_record. destruct (line_object json_loads line); [|discriminate].
  destruct (truthy _) eqn:T; [|discriminate]. now intros [= <- _].
Qed.

Lemma load_lines_keys lines : forall data data',
  load_lines json_loads data lines = Ok data' ->
  map fst data'
  = fold_left add_key (map fst (omap (line_record json_loads) lines)) (map fst data).
Proof.
  induction lines as [|l lines IH]; intros data data' H; cbn [load_lines] in H.
  - now injection H as <-.
  - destruct (load_line json_loads data l) as [d1|] eqn:E; [|discriminate].
    apply load_line_record in E as [E _]. cbn [omap list_omap].
    destruct (line_record json_loads l) as [[k r]|]; subst d1;
      rewrite (IH _ _ H); [|reflexivity].
    cbn [map fst fold_left]. now rewrite map_fst_dict_set.
Qed.

Lemma load_lines_keys_good lines : forall data data',
  load_lines json_loads data lines = Ok data' ->
  distinct_keys (map fst data) = true ->
  Forall (fun k => truthy k = true /\ hashable k = true) (map fst data) ->
  distinct_keys (map fst data') = true
  /\ Forall (fun k => truthy k = true /\ hashable k = true) (map fst data').
Proof.
  induction lines as [|l lines IH]; intros data data' H D T; cbn [load_lines] in H.
  - injection H as <-. now split.
  - destruct (load_line json_loads data l) as [d1|] eqn:E; [|discriminate].
    apply load_line_record in E as [-> Hh]. apply (IH _ _ H).
    + destruct (line_record json_loads l) as [[k r]|]; [|exact D].
      rewrite map_fst_dict_set. now apply distinct_add_key.
    + destruct (line_record json_loads l) as [[k r]|] eqn:R; [|exact T].
      rewrite map_fst_dict_set. unfold add_key.
      destruct (existsb _ (map fst data)); [exact T|].
      apply Forall_app. split; [exact T|].
      constructor; [|constructor].
      split; [exact (line_record_truthy l k r R) | exact Hh].
Qed.

(** X11. The keys of the loaded mapping are the truthy names of the lines
    that hold a dict, each once, in the order in which the names first
    appear in the store (a name that comes again keeps its first place):
    no two keys are equal as dict keys, and every key is truthy. *)
Theorem loaded_keys (content : string) (data : list (json * raw_repo)) :
  load_data_from_jsonl json_loads (Some content) = Ok data ->
  map fst data
  = fold_left add_key
      (map fst (omap (line_record json_loads) (Py.readlines content))) []
  /\ distinct_keys (map fst data) = true
  /\ Forall (fun k => truthy k = true /\ hashable k = true) (map fst data).
Proof.
  intros H. cbn [load_data_from_jsonl] in H. split.
  - exact (load_lines_keys _ _ _ H).
  - apply (load_lines_keys_good _ _ _ H); [reflexivity | constructor].
Qed.

Lemma In_dict_set {V} (d : list (json * V)) k v k' v' :
  In (k', v') (dict_set key_eqb d k v) ->
  In (k', v') d \/ (v' = v /\ (k' = k \/ key_eqb k' k = true)).
Proof.
  induction d as [|[k0 v0] d IH]; cbn [dict_set In].
  - intros [[= <- <-]|[]]. right. auto.
  - destruct (key_eqb k0 k) eqn:K; cbn [In].
    + intros [[= <- <-]|H]; [right; auto | left; now right].
    + intros [H|H]; [left; now left|].
      destruct (IH H) as [?|?]; [left; now right | now right].
Qed.

Lemma key_eqb_refl k : hashable k = true -> key_eqb k k = true.
Proof.
  destruct k; cbn; try discriminate; intros _;
    first [reflexivity | apply Z.eqb_refl | apply String.eqb_refl].
Qed.

Lemma load_lines_records lines : forall data data' k r,
  load_lines json_loads data lines = Ok data' ->
  In (k, r) data' ->
  In (k, r) data
  \/ exists line k0,
       In line lines /\ line_record json_loads line = Some (k0, r)
       /\ key_eqb k k0 = true.
Proof.
  induction lines as [|l lines IH]; intros data data' k r H Hin;
    cbn [load_lines] in H.
  - injection H as <-. now left.
  - destruct (load_line json_loads data l) as [d1|] eqn:E; [|discriminate].
    apply load_line_record in E as [-> Hh].
    destruct (IH _ _ k r H Hin) as [Hd|(line & k0 & Hl & Hr & Hk)].
    + destruct (line_record json_loads l) as [[k1 r1]|] eqn:R; [|now left].
      apply In_dict_set in Hd as [Hd|(-> & Hk)]; [now left|].
      right. exists l, k1. split; [now left|]. split; [exact R|].
      destruct Hk as [->|Hk]; [now apply key_eqb_refl | exact Hk].
    + right. exists line, k0. split; [now right | now split].
Qed.

(** X12. The loader invents nothing: every record of the loaded mapping is
    the record of some line of the store that holds a dict with a truthy
    name, and the key it stands under equals this name as a dict key. *)
Theorem loaded_records_come_from_lines (content : string)
    (data : list (json * raw_repo)) (k : json) (r : raw_repo) :
  load_data_from_jsonl json_loads (Some content) = Ok data ->
  In (k, r) data ->
  exists line o,
    In line (Py.readlines content)
    /\ line_object json_loads line = Some o
    /\ truthy (get o "full_name" JNull) = true
    /\ key_eqb k (get o "full_name" JNull) = true
    /\ r = raw_of_obj o.
Proof.
  intros H Hin. cbn [load_data_from_jsonl] in H.
  destruct (load_lines_records _ _ _ k r H Hin) as [[]|(line & k0 & Hl & Hr & Hk)].
  unfold line_record in Hr.
  destruct (line_object json_loads line) as [o|] eqn:E; [|discriminate].
  destruct (truthy _) eqn:T; [|discriminate]. injection Hr as <- <-.
  exists line, o. auto.
Qed.

End LoadedMapping.

Lemma loaded_keys_witness :
  map fst (mapping_of sample_entries)
  = fold_left add_key
      (map fst (omap (line_record MiniJson.loads) (Py.readlines mixed_store))) []
  /\ distinct_keys (map fst (mapping_of sample_entries)) = true
  /\ Forall (fun k => truthy k = true /\ hashable k = true)
       (map fst (mapping_of sample_entries)).
Proof.
  apply (loaded_keys MiniJson.loads mixed_store (mapping_of sample_entries)).
  vm_compute. reflexivity.
Defined.

Lemma loaded_records_come_from_lines_witness :
  exists line o,
    In line (Py.readlines mixed_store)
    /\ line_object MiniJson.loads line = Some o
    /\ truthy (get o "full_name" JNull) = true
    /\ key_eqb (JString "c/d") (get o "full_name" JNull) = true
    /\ {| raw_html_url := JString "https://github.com/c/d";
          raw_description := JString EmptyString;
          raw_listed := JBool false; raw_stars := JInt 0 |}
       = raw_of_obj o.
Proof.
  apply (loaded_records_come_from_lines MiniJson.loads mixed_store
           (mapping_of sample_entries)).
  - vm_compute. reflexivity.
  - vm_compute. right. left. reflexivity.
Defined.

(** ** Rate limit *)

Example int_examples :
  PyInt.int 4300 " 42 " = Some 42
  /\ PyInt.int 4300 "-7" = Some (-7)
  /\ PyInt.int 4300 "+1_000" = Some 1000
  /\ PyInt.int 4300 "007" = Some 7
  /\ PyInt.int 4300 EmptyString = None
  /\ PyInt.int 4300 "1__0" = None
  /\ PyInt.int 4300 "12_" = None
  /\ PyInt.int 4300 "- 5" = None
  /\ PyInt.int 4300 "1.5" = None
  /\ PyInt.int 4300 "0x10" = None.
Proof. vm_compute. repeat split; reflexivity. Qed.

(** X13. When [_handle_rate_limit] sleeps, both headers are present, the
    remaining quota reads as 0 and the reset time reads as a number; the
    pause is never negative, it ends no earlier than 5 seconds after the
    reset time, and exactly then when the reset time plus 5 is not yet
    past. *)
Theorem rate_limit_pause (max_str_digits : nat) (remaining reset : option string)
    (now s : Z) :
  _handle_rate_limit max_str_digits remaining reset now = Some s ->
  0 <= s
  /\ exists r t reset_ts,
       remaining = Some r /\ reset = Some t
       /\ PyInt.int max_str_digits r = Some 0
       /\ PyInt.int max_str_digits t = Some reset_ts
       /\ reset_ts + 5 <= now + s
       /\ (now <= reset_ts + 5 -> now + s = reset_ts + 5).
Proof.
  unfold _handle_rate_limit.
  destruct remaining as [r|]; [|discriminate].
  destruct reset as [t|]; [|discriminate].
  destruct (PyInt.int max_str_digits r) as [v|] eqn:R; [|discriminate].
  destruct (v =? 0) eqn:V; [|discriminate]. apply Z.eqb_eq in V. subst v.
  destruct (PyInt.int max_str_digits t) as [ts|] eqn:T; [|discriminate].
  intros [= <-]. split; [lia|].
  exists r, t, ts. repeat split; try reflexivity; try assumption; lia.
Qed.

Lemma rate_limit_pause_witness :
  0 <= 35
  /\ exists r t reset_ts,
       Some "0" = Some r /\ Some " 1700000030 " = Some t
       /\ PyInt.int 4300 r = Some 0
       /\ PyInt.int 4300 t = Some reset_ts
       /\ reset_ts + 5 <= 1700000000 + 35
       /\ (1700000000 <= reset_ts + 5 -> 1700000000 + 35 = reset_ts + 5).
Proof.
  apply (rate_limit_pause 4300 (Some "0") (Some " 1700000030 ") 1700000000 35).
  vm_compute. reflexivity.
Defined.

(** No pause in the other cases: a header is missing, quota is left, or a
    header is not a number. *)
Lemma rate_limit_no_pause max_str_digits remaining reset now :
  remaining = None \/ reset = None
  \/ (exists r, remaining = Some r /\ PyInt.int max_str_digits r <> Some 0)
  \/ (exists t, reset = Some t /\ PyInt.int max_str_digits t = None) ->
  _handle_rate_limit max_str_digits remaining reset now = None.
Proof.
  unfold _handle_rate_limit.
  intros [->|[->|[(r & -> & H)|(t & -> & H)]]].
  - reflexivity.
  - now destruct remaining.
  - destruct reset; [|reflexivity].
    destruct (PyInt.int max_str_digits r) as [v|]; [|reflexivity].
    destruct (v =? 0) eqn:V; [|reflexivity].
    apply Z.eqb_eq in V. subst v. contradiction.
  - destruct remaining as [r|]; [|reflexivity].
    destruct (PyInt.int max_str_digits r) as [v|]; [|reflexivity].
    destruct (v =? 0); [now rewrite H | reflexivity].
Qed.

(** ** Names of the star lists *)


(** ** Members of a star list *)

Lemma list_pages_loop_run pages name n : forall fuel page slr old,
  slr !! name = Some old ->
  (forall p, (page <= p < page + n)%nat ->
             exists found, pages p = Some found /\ found <> []) ->
  pages (page + n)%nat = Some [] \/ pages (page + n)%nat = None ->
  (n < fuel)%nat ->
  list_pages_loop fuel pages name page slr
  = (<[name := old ++ concat (map (fun p => default [] (pages p)) (seq page n))]> slr,
     match pages (page + n)%nat with
     | Some _ =>
         Returned (old ++ concat (map (fun p => default [] (pages p)) (seq page n)))
     | None => Raised
     end).
Proof.
  induction n as [|n IH]; intros fuel page slr old Hold Hp Hend Hf;
    (destruct fuel as [|fuel]; [lia|]); cbn [list_pages_loop seq map concat].
  - rewrite Nat.add_0_r in *. rewrite app_nil_r, (insert_id slr name old Hold).
    destruct Hend as [-> | ->]; [now rewrite Hold | reflexivity].
  - destruct (Hp page ltac:(lia)) as (found & Hfound & Hne).
    rewrite Hfound. destruct found as [|m found]; [contradiction|].
    rewrite Hold. cbn [default from_option].
    rewrite (IH fuel (S page) _ (old ++ m :: found)).
    + rewrite insert_insert_eq, <- app_assoc.
      replace (S page + n)%nat with (page + S n)%nat by lia. reflexivity.
    + apply lookup_insert_eq.
    + intros p Hpp. apply Hp. lia.
    + now replace (S page + n)%nat with (page + S n)%nat by lia.
    + lia.
Qed.

Lemma get_list_repos_run fuel pages name slr n :
  (forall p, (1 <= p <= n)%nat -> exists found, pages p = Some found /\ found <> []) ->
  pages (S n) = Some [] \/ pages (S n) = None ->
  (n < fuel)%nat ->
  get_list_repos fuel pages name slr
  = (<[name := default [] (slr !! name) ++ pages_upto pages n]> slr,
     match pages (S n) with
     | Some _ => Returned (default [] (slr !! name) ++ pages_upto pages n)
     | None => Raised
     end).
Proof.
  intros Hp Hend Hf. unfold get_list_repos, pages_upto.
  destruct (slr !! name) as [old|] eqn:E; cbn [default from_option].
  - apply (list_pages_loop_run pages name n fuel 1 slr old E);
      [intros p Hpp; apply Hp; lia | exact Hend | exact Hf].
  - rewrite (list_pages_loop_run pages name n fuel 1 _ []);
      [ | apply lookup_insert_eq | intros p Hpp; apply Hp; lia | exact Hend | exact Hf].
    now rewrite insert_insert_eq.
Qed.

(** X15. When the pages 1 to [n] of a list each hold some pair and page
    [n + 1] holds none, [get_list_repos] makes [n + 1] requests and
    returns what [star_list_repos] had for the list followed by the pairs
    of the pages 1 to [n], in order; this is also the entry of the list in
    [star_list_repos] afterwards, and no other entry changes.  The entry
    is there even when the first page holds nothing; whatever pages come
    after the first empty one are not read. *)
Theorem get_list_repos_result (fuel : nat)
    (pages : nat -> option (list (string * string))) (list_name : string)
    (slr : gmap string (list (string * string))) (n : nat) :
  ends_after pages n ->
  (n < fuel)%nat ->
  get_list_repos fuel pages list_name slr
  = (<[list_name := default [] (slr !! list_name) ++ pages_upto pages n]> slr,
     Returned (default [] (slr !! list_name) ++ pages_upto pages n)).
Proof.
  intros [Hp He] Hf.
  rewrite (get_list_repos_run fuel pages list_name slr n Hp (or_introl He) Hf).
  now rewrite He.
Qed.

(** X16. When a request of [get_list_repos] raises at page [n + 1], the
    pairs of the pages read before it stay in [star_list_repos]: the
    entry of the list is what it was followed by the pairs of the pages 1
    to [n]. *)
Theorem get_list_repos_raises (fuel : nat)
    (pages : nat -> option (list (string * string))) (list_name : string)
    (slr : gmap string (list (string * string))) (n : nat) :
  (forall p, (1 <= p <= n)%nat -> exists found, pages p = Some found /\ found <> []) ->
  pages (S n) = None ->
  (n < fuel)%nat ->
  get_list_repos fuel pages list_name slr
  = (<[list_name := default [] (slr !! list_name) ++ pages_upto pages n]> slr,
     Raised).
Proof.
  intros Hp He Hf.
  rewrite (get_list_repos_run fuel pages list_name slr n Hp (or_intror He) Hf).
  now rewrite He.
Qed.

(** X17. [get_list_repos] adds to what is there: a second call for the
    same list, on the same pages, returns the members twice over. *)
Theorem get_list_repos_twice (fuel : nat)
    (pages : nat -> option (list (string * string))) (list_name : string)
    (slr : gmap string (list (string * string))) (n : nat) :
  ends_after pages n ->
  (n < fuel)%nat ->
  slr !! list_name = None ->
  let first := get_list_repos fuel pages list_name slr in
  let second := get_list_repos fuel pages list_name first.1 in
  first.2 = Returned (pages_upto pages n)
  /\ second.2 = Returned (pages_upto pages n ++ pages_upto pages n)
  /\ second.1 !! list_name = Some (pages_upto pages n ++ pages_upto pages n).
Proof.
  intros [Hp He] Hf Hnone first second. subst first second.
  rewrite (get_list_repos_run fuel pages list_name slr n Hp (or_introl He) Hf).
  rewrite He, Hnone. cbn [fst snd default from_option app].
  rewrite (get_list_repos_run fuel pages list_name _ n Hp (or_introl He) Hf).
  rewrite He, !lookup_insert_eq. cbn [fst snd default from_option].
  rewrite lookup_insert_eq. auto.
Qed.

Lemma sample_pages_end : ends_after sample_pages 2.
Proof.
  split; [|reflexivity].
  intros [|[|[|p]]] Hp; try lia; eexists; (split; [reflexivity | discriminate]).
Defined.

Lemma get_list_repos_result_witness :
  get_list_repos 5 sample_pages "tools" ∅
  = (<["tools" := default [] ((∅ : gmap string (list (string * string))) !! "tools")
                  ++ pages_upto sample_pages 2]> ∅,
     Returned (default [] ((∅ : gmap string (list (string * string))) !! "tools")
               ++ pages_upto sample_pages 2)).
Proof.
  apply (get_list_repos_result 5 sample_pages "tools" ∅ 2 sample_pages_end). lia.
Defined.

Lemma get_list_repos_raises_witness :
  get_list_repos 5 failing_pages "tools" ∅
  = (<["tools" := default [] ((∅ : gmap string (list (string * string))) !! "tools")
                  ++ pages_upto failing_pages 1]> ∅,
     Raised).
Proof.
  apply (get_list_repos_raises 5 failing_pages "tools" ∅ 1).
  - intros [|[|p]] Hp; try lia. eexists. split; [reflexivity | discriminate].
  - reflexivity.
  - lia.
Defined.

Lemma get_list_repos_twice_witness :
  (get_list_repos 5 sample_pages "tools" ∅).2 = Returned (pages_upto sample_pages 2)
  /\ (get_list_repos 5 sample_pages "tools"
        (get_list_repos 5 sample_pages "tools" ∅).1).2
     = Returned (pages_upto sample_pages 2 ++ pages_upto sample_pages 2)
  /\ (get_list_repos 5 sample_pages "tools"
        (get_list_repos 5 sample_pages "tools" ∅).1).1 !! "tools"
     = Some (pages_upto sample_pages 2 ++ pages_upto sample_pages 2).
Proof.
  apply (get_list_repos_twice 5 sample_pages "tools" ∅ 2 sample_pages_end);
    [lia | reflexivity].
Defined.

(** ** Members of all star lists *)

Lemma get_all_repos_run fuel server ends star_lists : forall slr,
  (forall cat, In cat star_lists ->
     ends_after (server cat.1) (ends cat.1) /\ (ends cat.1 < fuel)%nat) ->
  exists slr',
    get_all_repos fuel server star_lists slr = (slr', Returned slr')
    /\ forall list_url,
         slr' !! list_url
         = match calls_for list_url star_lists with
           | O => slr !! list_url
           | S k =>
               Some (default [] (slr !! list_url)
                     ++ concat (replicate (S k)
                                  (pages_upto (server list_url) (ends list_url))))
           end.
Proof.
  induction star_lists as [|[url name] rest IH]; intros slr H.
  - exists slr. split; reflexivity.
  - destruct (H (url, name) (or_introl eq_refl)) as [[Hp He] Hf]. cbn [fst] in *.
    cbn [get_all_repos].
    rewrite (get_list_repos_run fuel (server url) url slr (ends url) Hp
               (or_introl He) Hf), He.
    destruct (IH (<[url := default [] (slr !! url)
                          ++ pages_upto (server url) (ends url)]> slr))
      as (slr' & Hrun & Hget); [intros cat Hc; apply H; now right|].
    exists slr'. split; [exact Hrun|].
    intros list_url. rewrite Hget. unfold calls_for. cbn [map fst List.filter].
    destruct (String.eqb list_url url) eqn:E.
    + apply String.eqb_eq in E. subst list_url. rewrite lookup_insert_eq.
      cbn [length default from_option]. unfold id.
      destruct (length (List.filter (String.eqb url) (map fst rest))) as [|k].
      * cbn [replicate concat]. now rewrite app_nil_r.
      * cbn [replicate concat]. now rewrite <- app_assoc.
    + apply String.eqb_neq in E. rewrite lookup_insert_ne by congruence.
      reflexivity.
Qed.

(** X18. When the pages of every star list end (some page holds no pair),
    [get_all_repos] returns [star_list_repos], in which every identifier
    of [star_lists] has an entry: what was there for it followed by the
    pairs of its pages, once for every time the identifier occurs in
    [star_lists] (an identifier listed twice has its members twice).  The
    entries of other identifiers are unchanged. *)
Theorem get_all_repos_result (fuel : nat)
    (server : string -> nat -> option (list (string * string)))
    (ends : string -> nat) (star_lists : list (string * string))
    (slr : gmap string (list (string * string))) :
  (forall cat, In cat star_lists ->
     ends_after (server cat.1) (ends cat.1) /\ (ends cat.1 < fuel)%nat) ->
  exists slr',
    get_all_repos fuel server star_lists slr = (slr', Returned slr')
    /\ (forall cat, In cat star_lists -> is_Some (slr' !! cat.1))
    /\ forall list_url,
         slr' !! list_url
         = match calls_for list_url star_lists with
           | O => slr !! list_url
           | S k =>
               Some (default [] (slr !! list_url)
                     ++ concat (replicate (S k)
                                  (pages_upto (server list_url) (ends list_url))))
           end.
Proof.
  intros H.
  destruct (get_all_repos_run fuel server ends star_lists slr H)
    as (slr' & Hrun & Hget).
  exists slr'. split; [exact Hrun|]. split; [|exact Hget].
  intros cat Hc. rewrite Hget. unfold calls_for.
  destruct (List.filter (String.eqb cat.1) (map fst star_lists)) as [|x l] eqn:E.
  - exfalso.
    assert (F : In cat.1 (List.filter (String.eqb cat.1) (map fst star_lists))).
    { apply List.filter_In. split; [now apply in_map | apply String.eqb_refl]. }
    rewrite E in F. contradiction.
  - cbn [length]. eauto.
Qed.

Lemma sample_server_ends cat :
  In cat [("tools", "Tools"); ("go", "Go"); ("tools", "Tools again")] ->
  ends_after (sample_server cat.1) (sample_ends cat.1)
  /\ (sample_ends cat.1 < 5)%nat.
Proof.
  intros [<-|[<-|[<-|[]]]]; cbn; (split; [|lia]);
    first [ exact sample_pages_end
          | split; [|reflexivity];
            intros [|[|p]] Hp; try lia; eexists;
            (split; [reflexivity | discriminate]) ].
Defined.

Lemma get_all_repos_result_witness :
  exists slr',
    get_all_repos 5 sample_server
      [("tools", "Tools"); ("go", "Go"); ("tools", "Tools again")] ∅
    = (slr', Returned slr')
    /\ (forall cat,
          In cat [("tools", "Tools"); ("go", "Go"); ("tools", "Tools again")] ->
          is_Some (slr' !! cat.1))
    /\ forall list_url,
         slr' !! list_url
         = match calls_for list_url
                   [("tools", "Tools"); ("go", "Go"); ("tools", "Tools again")] with
           | O => (∅ : gmap string (list (string * string))) !! list_url
           | S k =>
               Some (default [] ((∅ : gmap string (list (string * string))) !! list_url)
                     ++ concat (replicate (S k)
                                  (pages_upto (sample_server list_url)
                                     (sample_ends list_url))))
           end.
Proof.
  apply (get_all_repos_result 5 sample_server sample_ends
           [("tools", "Tools"); ("go", "Go"); ("tools", "Tools again")] ∅).
  exact sample_server_ends.
Defined.

(** ** The pages of the starred repositories *)









Example fetch_starred_sample :
  fetch_starred 4300 10 (sample_api sample_response_2)
    (fun _ => 1700000000) "octocat"
  = (sample_pages_received, [35], Returned tt).
Proof. vm_compute. reflexivity. Qed.


(** ** The lines of the store *)

(** X21. The store [get_all_starred] writes has one line for every item
    received, in the order of receipt, an item received twice being
    written twice: read back line by line, it gives the text of
    [json.dumps] for each record followed by a line break (no record is
    split over lines, as [json.dumps] writes no raw line break). *)
Theorem store_lines (json_dumps : json -> string) (pages : list (list api_repo)) :
  Forall (fun r => no_line_break (json_dumps (entry_json (entry_of_api r))) = true)
    (concat pages) ->
  Py.readlines (get_all_starred json_dumps pages)
  = map (fun r => json_dumps (entry_json (entry_of_api r)) +:+ Py.nl) (concat pages)
  /\ length (Py.readlines (get_all_starred json_dumps pages))
     = length (concat pages).
Proof.
  intros H.
  assert (E : Py.readlines (get_all_starred json_dumps pages)
              = map (fun r => json_dumps (entry_json (entry_of_api r)) +:+ Py.nl)
                  (concat pages)).
  { unfold get_all_starred. induction H as [|r l Hr _ IH]; [reflexivity|].
    cbn [map write_entries]. now rewrite (readlines_line _ _ Hr), IH. }
  split; [exact E|]. rewrite E. apply length_map.
Qed.

Lemma store_lines_witness :
  Py.readlines (get_all_starred MiniJson.dumps sample_pages_received)
  = map (fun r => MiniJson.dumps (entry_json (entry_of_api r)) +:+ Py.nl)
      (concat sample_pages_received)
  /\ length (Py.readlines (get_all_starred MiniJson.dumps sample_pages_received))
     = length (concat sample_pages_received).
Proof.
  apply (store_lines MiniJson.dumps sample_pages_received).
  repeat constructor.
Defined.

(** ** From the fetch to the document *)

Lemma data_of_raw_get raw : forall d k,
  data_of_raw raw = Some d ->
  dict_get String.eqb d k
  = match dict_get key_eqb raw (JString k) with
    | Some rr => repo_of_raw rr
    | None => None
    end.
Proof.
  induction raw as [|[k0 r0] raw IH]; intros d k H; cbn [data_of_raw] in H.
  - now injection H as <-.
  - destruct k0; try discriminate.
    destruct (repo_of_raw r0) as [r0'|] eqn:E0; [|discriminate].
    destruct (data_of_raw raw) as [rest|]; [|discriminate].
    injection H as <-. cbn [dict_get key_eqb].
    destruct (String.eqb s k); [now rewrite E0 | now apply IH].
Qed.

Lemma dict_get_key_In {V} (d : list (json * V)) k v :
  dict_get key_eqb d k = Some v -> exists k', In (k', v) d.
Proof.
  induction d as [|[k0 v0] d IH]; cbn [dict_get]; [discriminate|].
  destruct (key_eqb k0 k).
  - intros [= ->]. exists k0. now left.
  - intros H. destruct (IH H) as [k' Hk]. exists k'. now right.
Qed.

Lemma mapping_has_name entries : forall (d : list (json * raw_repo)) name,
  (exists e, In e entries /\ full_name e = name)
  \/ dict_get key_eqb d (JString name) <> None ->
  dict_get key_eqb
    (fold_left
       (fun d e => dict_set key_eqb d (JString (full_name e)) (raw_of_entry e))
       entries d) (JString name) <> None.
Proof.
  induction entries as [|e entries IH]; intros d name H; cbn [fold_left].
  - destruct H as [(e & [] & _)|H]; exact H.
  - apply IH. destruct H as [(e' & [<-|Hin] & Hn)|H].
    + right. subst name. now rewrite dict_get_set_same.
    + left. eauto.
    + right. destruct (String.eqb (full_name e) name) eqn:E.
      * apply String.eqb_eq in E. subst name. now rewrite dict_get_set_same.
      * apply String.eqb_neq in E. rewrite dict_get_set_other; [exact H|].
        congruence.
Qed.

Lemma mapping_records entries : forall (d : list (json * raw_repo)) k rr,
  In (k, rr)
    (fold_left
       (fun d e => dict_set key_eqb d (JString (full_name e)) (raw_of_entry e))
       entries d) ->
  In (k, rr) d \/ exists e, In e entries /\ rr = raw_of_entry e.
Proof.
  induction entries as [|e entries IH]; intros d k rr H; cbn [fold_left] in H.
  - now left.
  - destruct (IH _ _ _ H) as [Hd|(e' & He' & ->)].
    + apply In_dict_set in Hd as [Hd|(-> & _)]; [now left|].
      right. exists e. split; [now left | reflexivity].
    + right. exists e'. split; [now right | reflexivity].
Qed.

Lemma unlisted_key_has_row self k r :
  dict_get String.eqb (data self) k = Some r ->
  listed r = false ->
  exists keys, In keys (table_keys self) /\ In k keys.
Proof.
  intros Hk Hl. unfold table_keys.
  destruct (in_dec String.string_dec k (claimed_keys self)) as [Hc|Hn].
  - apply claimed_keys_In in Hc as (cat & Hcat & Hrow).
    exists (map fst (category_rows self cat)). split; [|exact Hrow].
    apply in_or_app. left.
    apply (in_map (fun cat => map fst (category_rows self cat))). exact Hcat.
  - exists (uncategorized_keys self). split; [apply in_or_app; right; now left|].
    unfold uncategorized_keys. rewrite generate_text_eq. cbn [fst].
    apply unlisted_In. rewrite mark_all_keys. split; [now apply dict_get_In in Hk|].
    apply is_unlisted_mark_all. split; [|exact Hn].
    unfold is_unlisted. now rewrite Hk, Hl.
Qed.

(** X22. The pipeline of the program loses no starred repository: the
    store written for the pages received loads, the loaded mapping is one
    the renderer works on, and, whatever the sort mode and the star lists
    scraped, every repository of every page has a row in some table of the
    document (the table of a category, or the last one). *)
Theorem fetched_repos_all_rendered (json_loads : string -> option json)
    (json_dumps : json -> string) (pages : list (list api_repo))
    (mode : string) (lists : list (string * string))
    (members : gmap string (list (string * string))) :
  Forall (fun e => full_name e <> EmptyString) (map entry_of_api (concat pages)) ->
  Forall (fun e => dumps_ok json_loads json_dumps (entry_json e))
    (map entry_of_api (concat pages)) ->
  exists raw d,
    load_data_from_jsonl json_loads (Some (get_all_starred json_dumps pages))
    = Ok raw
    /\ data_of_raw raw = Some d
    /\ forall r, In r (concat pages) ->
         exists keys,
           In keys (table_keys {| sort_by := mode; star_lists := lists;
                                  star_list_repos := members; data := d |})
           /\ In (api_full_name r) keys.
Proof.
  intros Hn Hd.
  destruct (data_of_raw_mapping (map entry_of_api (concat pages))) as [d Hdata].
  exists (mapping_of (map entry_of_api (concat pages))), d.
  split.
  { unfold get_all_starred, load_data_from_jsonl.
    rewrite (readlines_write_entries json_loads json_dumps _ Hd).
    now apply load_lines_entries. }
  split; [exact Hdata|].
  intros r Hr.
  pose proof (data_of_raw_get _ d (api_full_name r) Hdata) as G.
  assert (P : dict_get key_eqb (mapping_of (map entry_of_api (concat pages)))
                (JString (api_full_name r)) <> None).
  { apply mapping_has_name. left. exists (entry_of_api r).
    split; [now apply in_map | reflexivity]. }
  destruct (dict_get key_eqb _ (JString (api_full_name r))) as [rr|] eqn:E;
    [|contradiction].
  destruct (dict_get_key_In _ _ _ E) as [k' Hin].
  destruct (mapping_records _ _ _ _ Hin) as [[]|(e & He & ->)].
  apply in_map_iff in He as (r0 & <- & _).
  cbn in G.
  apply (unlisted_key_has_row
           {| sort_by := mode; star_lists := lists;
              star_list_repos := members; data := d |}
           (api_full_name r) _ G).
  reflexivity.
Qed.

Lemma sample_pages_named :
  Forall (fun e => full_name e <> EmptyString)
    (map entry_of_api (concat sample_pages_received)).
Proof. repeat constructor; discriminate. Defined.

Lemma sample_pages_dumps_ok :
  Forall (fun e => dumps_ok MiniJson.loads MiniJson.dumps (entry_json e))
    (map entry_of_api (concat sample_pages_received)).
Proof.
  repeat constructor; first [discriminate | vm_compute; reflexivity].
Defined.

Lemma fetched_repos_all_rendered_witness :
  exists raw d,
    load_data_from_jsonl MiniJson.loads
      (Some (get_all_starred MiniJson.dumps sample_pages_received))
    = Ok raw
    /\ data_of_raw raw = Some d
    /\ forall r, In r (concat sample_pages_received) ->
         exists keys,
           In keys (table_keys {| sort_by := "stars";
                                  star_lists := [("tools", "Tools")];
                                  star_list_repos := {["tools" := [("a", "b")]]};
                                  data := d |})
           /\ In (api_full_name r) keys.
Proof.
  apply (fetched_repos_all_rendered MiniJson.loads MiniJson.dumps
           sample_pages_received "stars" [("tools", "Tools")]
           {["tools" := [("a", "b")]]}
           sample_pages_named sample_pages_dumps_ok).
Defined.

(** ** A template without the placeholder *)


